(** * WagerWire betting engine: settlement, payout and emotion mapping

    Shallow embedding of [js/betting-engine.js] and the properties of its
    structured settlement path ([calculateEnhancedPredictedResult]),
    payout ([calculatePayout]) and emotion tables ([getEmotionFromResult],
    [getInProgressEmotion]).

    Numbers.  A JavaScript number is an IEEE-754 binary64 value.  The
    engine only adds, subtracts, multiplies, divides by the literal 100,
    rounds with [Math.round] and compares.  Module [JS] models a number as
    an exact rational extended with [Infinity], [-Infinity] and [NaN]:
    the special values propagate as in IEEE arithmetic and every
    comparison with [NaN] is false.  On integers and on multiples of 0.25
    of moderate size (the inputs of the settlement rules) every binary64
    operation the engine performs is exact, so there the model and the
    machine agree.  Rounding error of binary64 on other inputs, overflow
    to infinity and the sign of zero are not modelled.

    Module [Binary64] repeats the margin, the result chain and the payout
    on primitive binary64 floats.  [binary64_label_is_exact] checks, on
    every quarter line from -10 to 10 and every goal count from -8 to 8,
    that the machine's label is the exact one, and the payout figures of
    the specification are evaluated in both arithmetics. *)

From Stdlib Require Import ZArith QArith Qcanon Qround.
From Stdlib Require Import String Ascii List Bool Lia Lqa.
From Stdlib Require Import DecimalString.
From Stdlib Require DecimalPos DecimalN.
From Stdlib Require Floats.
Import ListNotations.

Local Open Scope string_scope.

(** ** JavaScript numbers, values and the builtins the engine calls *)

Module JS.

(** *** Numbers *)

Inductive number : Type :=
| Fin (q : Qc)
| PosInf
| NegInf
| NaN.

(** Undefined arises when an array pattern binds past the end of the
    array ([const [h, a] = ...]). *)
Inductive value : Type :=
| Undefined
| Num (n : number).

Definition qc (n : Z) (d : positive) : Qc := Q2Qc (n # d).
Definition of_Z (z : Z) : number := Fin (qc z 1).
Definition of_nat (n : nat) : number := of_Z (Z.of_nat n).

Definition Qc_leb (x y : Qc) : bool := Qle_bool x y.
Definition Qc_ltb (x y : Qc) : bool := negb (Qle_bool y x).
Definition Qc_eqb (x y : Qc) : bool := Qc_eq_bool x y.

(** ToNumber on a value: [undefined] converts to [NaN]. *)
Definition to_number (v : value) : number :=
  match v with
  | Undefined => NaN
  | Num n => n
  end.

Definition isNaN (x : number) : bool :=
  match x with
  | NaN => true
  | _ => false
  end.

Definition neg (x : number) : number :=
  match x with
  | Fin a => Fin (- a)
  | PosInf => NegInf
  | NegInf => PosInf
  | NaN => NaN
  end.

(** [x + y] on numbers. *)
Definition add (x y : number) : number :=
  match x, y with
  | NaN, _ | _, NaN => NaN
  | Fin a, Fin b => Fin (a + b)
  | PosInf, NegInf | NegInf, PosInf => NaN
  | PosInf, _ | _, PosInf => PosInf
  | NegInf, _ | _, NegInf => NegInf
  end.

(** [x - y] on numbers; IEEE subtraction is addition of the negation. *)
Definition sub (x y : number) : number := add x (neg y).

(** Sign of a rational as -1, 0 or 1. *)
Definition sgn (a : Qc) : Z := Z.sgn (Qnum a).

Definition signed_inf (s : Z) : number :=
  match s with
  | Z0 => NaN
  | Zpos _ => PosInf
  | Zneg _ => NegInf
  end.

(** [x * y] on numbers: zero times infinity is [NaN]. *)
Definition mul (x y : number) : number :=
  match x, y with
  | NaN, _ | _, NaN => NaN
  | Fin a, Fin b => Fin (a * b)
  | Fin a, PosInf | PosInf, Fin a => signed_inf (sgn a)
  | Fin a, NegInf | NegInf, Fin a => signed_inf (- sgn a)
  | PosInf, PosInf | NegInf, NegInf => PosInf
  | PosInf, NegInf | NegInf, PosInf => NegInf
  end.

(** [x / y] on numbers.  A zero divisor is taken as positive zero; the
    engine divides by the literal 100 only. *)
Definition div (x y : number) : number :=
  match x, y with
  | NaN, _ | _, NaN => NaN
  | Fin a, Fin b =>
      if Qc_eqb b 0 then signed_inf (sgn a) else Fin (a / b)
  | Fin _, PosInf | Fin _, NegInf => Fin 0
  | PosInf, Fin b => if Qc_ltb b 0 then NegInf else PosInf
  | NegInf, Fin b => if Qc_ltb b 0 then PosInf else NegInf
  | _, _ => NaN
  end.

(** [Math.round]: nearest integer, ties towards positive infinity. *)
Definition Math_round (x : number) : number :=
  match x with
  | Fin a => of_Z (Qfloor (this a + (1 # 2))%Q)
  | _ => x
  end.

(** [x >= y]: false as soon as one side is [NaN]. *)
Definition ge (x y : number) : bool :=
  match x, y with
  | NaN, _ | _, NaN => false
  | Fin a, Fin b => Qc_leb b a
  | PosInf, _ => true
  | _, NegInf => true
  | _, _ => false
  end.

(** [x === y] on numbers: [NaN] is not equal to itself. *)
Definition strict_eq (x y : number) : bool :=
  match x, y with
  | Fin a, Fin b => Qc_eqb a b
  | PosInf, PosInf | NegInf, NegInf => true
  | _, _ => false
  end.

(** *** Strings

    Strings are byte strings; the engine's literals and the score
    strings are ASCII.  White space is the ASCII part of the ECMAScript
    WhiteSpace and LineTerminator sets (tab, line feed, vertical tab,
    form feed, carriage return, space). *)

Definition is_whitespace (c : ascii) : bool :=
  let n := nat_of_ascii c in
  ((9 <=? n) && (n <=? 13) || (n =? 32))%nat.

Definition is_digit (c : ascii) : bool :=
  let n := nat_of_ascii c in
  ((48 <=? n) && (n <=? 57))%nat.

(** Value of a character as a digit in the given radix (at most 16). *)
Definition digit_in_radix (radix : N) (c : ascii) : option N :=
  let n := N_of_ascii c in
  let v :=
    if ((48 <=? n) && (n <=? 57))%N then Some (n - 48)%N
    else if ((97 <=? n) && (n <=? 102))%N then Some (n - 87)%N
    else if ((65 <=? n) && (n <=? 70))%N then Some (n - 55)%N
    else None in
  match v with
  | Some d => if (d <? radix)%N then Some d else None
  | None => None
  end.

Definition is_radix_digit (radix : N) (c : ascii) : bool :=
  match digit_in_radix radix c with
  | Some _ => true
  | None => false
  end.

(** Longest prefix whose characters satisfy [p], and the rest. *)
Fixpoint span (p : ascii -> bool) (s : string) : string * string :=
  match s with
  | EmptyString => (EmptyString, EmptyString)
  | String c r =>
      if p c then let (a, b) := span p r in (String c a, b)
      else (EmptyString, s)
  end.

(** Value of a string of digits, most significant first. *)
Fixpoint digits_value (radix : N) (acc : N) (s : string) : N :=
  match s with
  | EmptyString => acc
  | String c r =>
      match digit_in_radix radix c with
      | Some d => digits_value radix (acc * radix + d)%N r
      | None => acc
      end
  end.

Fixpoint trim_start (s : string) : string :=
  match s with
  | EmptyString => EmptyString
  | String c r => if is_whitespace c then trim_start r else s
  end.

Fixpoint trim_end (s : string) : string :=
  match s with
  | EmptyString => EmptyString
  | String c r =>
      let r' := trim_end r in
      if is_whitespace c && (r' =? EmptyString) then EmptyString
      else String c r'
  end.

Definition trim (s : string) : string := trim_end (trim_start s).

(** [s.replace(/\s/g, '')] *)
Fixpoint remove_whitespace (s : string) : string :=
  match s with
  | EmptyString => EmptyString
  | String c r =>
      if is_whitespace c then remove_whitespace r
      else String c (remove_whitespace r)
  end.

(** [s.split(sep)] for a one-character separator: never empty, the empty
    string splits into one empty piece. *)
Fixpoint split (sep : ascii) (s : string) : list string :=
  match s with
  | EmptyString => [EmptyString]
  | String c r =>
      if Ascii.eqb c sep then EmptyString :: split sep r
      else
        match split sep r with
        | piece :: pieces => String c piece :: pieces
        | [] => [String c EmptyString]
        end
  end.

(** [s.startsWith(p)] *)
Fixpoint startsWith (s p : string) {struct p} : bool :=
  match p with
  | EmptyString => true
  | String b p' =>
      match s with
      | EmptyString => false
      | String a s' => Ascii.eqb a b && startsWith s' p'
      end
  end.

(** Truthiness of a string: only the empty string is falsy. *)
Definition truthy (s : string) : bool := negb (s =? EmptyString).

(** Array pattern element: [undefined] past the end. *)
Definition element {A : Type} (inj : A -> value) (l : list A) (i : nat)
  : value :=
  match nth_error l i with
  | Some a => inj a
  | None => Undefined
  end.

(** *** Number to string

    [Number::toString] in radix 10, positional notation.  Exact for
    integers and for values with a terminating decimal expansion (what
    the engine prints for scores and quarter lines); the exponent
    notation JavaScript switches to from 1e21 or below 1e-6 is not
    modelled, and a non-terminating expansion is cut after 20 digits. *)

Definition digit_char (d : Z) : ascii :=
  ascii_of_nat (48 + Z.to_nat d).

Fixpoint fraction_digits (fuel : nat) (r d : Z) : string :=
  match fuel with
  | O => EmptyString
  | S fuel' =>
      if (r =? 0)%Z then EmptyString
      else String (digit_char (r * 10 / d))
                  (fraction_digits fuel' ((r * 10) mod d) d)
  end.

Definition string_of_Z (z : Z) : string :=
  NilZero.string_of_int (Z.to_int z).

Definition Qc_toString (q : Qc) : string :=
  let n := Qnum q in
  let d := Zpos (Qden q) in
  let a := Z.abs n in
  let sign := if (n <? 0)%Z then "-" else "" in
  let whole := string_of_Z (a / d) in
  let r := (a mod d)%Z in
  if (r =? 0)%Z then sign ++ whole
  else sign ++ whole ++ "." ++ fraction_digits 20 r d.

Definition Number_toString (x : number) : string :=
  match x with
  | Fin q => Qc_toString q
  | PosInf => "Infinity"
  | NegInf => "-Infinity"
  | NaN => "NaN"
  end.

(** ToString on a value, as a template literal applies it. *)
Definition toString (v : value) : string :=
  match v with
  | Undefined => "undefined"
  | Num n => Number_toString n
  end.

(** *** String to number *)

Definition pow10 (e : Z) : Qc :=
  if (0 <=? e)%Z then qc (10 ^ e) 1 else qc 1 (Z.to_pos (10 ^ (- e))).

(** An optional sign: the factor and the rest of the string. *)
Definition read_sign (s : string) : Z * string :=
  match s with
  | String "+" r => (1%Z, r)
  | String "-" r => ((-1)%Z, r)
  | _ => (1%Z, s)
  end.

(** NonDecimalIntegerLiteral: [0x], [0o] or [0b] and at least one digit
    of that radix, nothing after.  [None] when there is no such prefix. *)
Definition non_decimal_literal (s : string) : option number :=
  match s with
  | String "0" (String x r) =>
      let lit (radix : N) :=
        let (ds, rest) := span (is_radix_digit radix) r in
        if (ds =? EmptyString) || negb (rest =? EmptyString) then Some NaN
        else Some (of_Z (Z.of_N (digits_value radix 0 ds))) in
      if (Ascii.eqb x "x" || Ascii.eqb x "X")%bool then lit 16%N
      else if (Ascii.eqb x "o" || Ascii.eqb x "O")%bool then lit 8%N
      else if (Ascii.eqb x "b" || Ascii.eqb x "B")%bool then lit 2%N
      else None
  | _ => None
  end.

(** ExponentPart, or nothing: the exponent, [None] when malformed. *)
Definition exponent_part (s : string) : option Z :=
  match s with
  | EmptyString => Some 0%Z
  | String e r =>
      if (Ascii.eqb e "e" || Ascii.eqb e "E")%bool then
        let (sign, r') := read_sign r in
        let (ds, rest) := span is_digit r' in
        if (ds =? EmptyString) || negb (rest =? EmptyString) then None
        else Some (sign * Z.of_N (digits_value 10 0 ds))%Z
      else None
  end.

(** StrUnsignedDecimalLiteral without [Infinity]: digits, an optional
    fraction and an optional exponent, with a digit on at least one side
    of the point. *)
Definition unsigned_decimal (s : string) : option Qc :=
  let (ip, r1) := span is_digit s in
  let (fp, r2) :=
    match r1 with
    | String "." r => span is_digit r
    | _ => (EmptyString, r1)
    end in
  if (ip =? EmptyString) && (fp =? EmptyString) then None
  else
    match exponent_part r2 with
    | Some e =>
        Some (qc (Z.of_N (digits_value 10 0 (ip ++ fp))) 1
              * pow10 (e - Z.of_nat (String.length fp)))
    | None => None
    end.

(** [Number(s)] on a string (StringToNumber): white space is trimmed,
    the empty string is 0, a malformed literal is [NaN]. *)
Definition Number (s : string) : number :=
  let t := trim s in
  if t =? EmptyString then of_Z 0
  else
    match non_decimal_literal t with
    | Some n => n
    | None =>
        let (sign, u) := read_sign t in
        if u =? "Infinity" then signed_inf sign
        else
          match unsigned_decimal u with
          | Some q => Fin (qc sign 1 * q)
          | None => NaN
          end
    end.

(** [parseInt(s)] without a radix: leading white space and a sign are
    skipped, [0x] selects radix 16, the longest run of digits is read
    and whatever follows is ignored; [NaN] when there is no digit. *)
Definition parseInt (s : string) : number :=
  let (sign, u) := read_sign (trim_start s) in
  let (radix, body) :=
    match u with
    | String "0" (String x r) =>
        if (Ascii.eqb x "x" || Ascii.eqb x "X")%bool then (16%N, r)
        else (10%N, u)
    | _ => (10%N, u)
    end in
  let (ds, _) := span (is_radix_digit radix) body in
  if ds =? EmptyString then NaN
  else of_Z (sign * Z.of_N (digits_value radix 0 ds)).

(** [parseFloat(x)] on a number [x]: the argument is converted to its
    decimal string, which parses back to the same number. *)
Definition parseFloat (x : number) : number := x.

End JS.

(** ** The betting engine ([js/betting-engine.js]) *)

Module BettingEngine.
Import JS.

(** Emotion data: [{ emoji, state, description }]. *)
Record emotion : Type := mkEmotion {
  emoji : string;
  state : string;
  description : string
}.

(** Numeric literals of the source. *)
Definition n0_5 : number := Fin (qc 1 2).
Definition n0_25 : number := Fin (qc 1 4).
Definition n0 : number := Fin (qc 0 1).
Definition n1 : number := Fin (qc 1 1).
Definition n100 : number := Fin (qc 100 1).

(** The result chain of lines 150-160, repeated verbatim at lines
    174-184: the outcome label of a rounded margin. *)
Definition outcome_label (rounded : number) : string :=
  if ge rounded n0_5 then "Win"
  else if strict_eq rounded n0_25 then "Half Win"
  else if strict_eq rounded n0 then "Push"
  else if strict_eq rounded (neg n0_25) then "Half Loss"
  else "Loss".

(** [Math.round(x * 100) / 100] *)
Definition round2 (x : number) : number :=
  div (Math_round (mul x n100)) n100.

(** Lines 122-137: the current score and the goals since the bet was
    placed.  The adjustment is applied only when the bet-time score is a
    non-empty string other than ['N/A'] that splits in two pieces which
    both start with an integer. *)
Definition adjusted_goals (betTimeScore : option string)
  (currentHomeGoals currentAwayGoals : value) : value * value :=
  match betTimeScore with
  | Some bts =>
      if truthy bts && negb (bts =? "N/A") then
        let betScoreParts := split "-" (remove_whitespace bts) in
        if (List.length betScoreParts =? 2)%nat then
          let betHomeGoals := parseInt (nth 0 betScoreParts "") in
          let betAwayGoals := parseInt (nth 1 betScoreParts "") in
          if negb (isNaN betHomeGoals) && negb (isNaN betAwayGoals) then
            (Num (sub (to_number currentHomeGoals) betHomeGoals),
             Num (sub (to_number currentAwayGoals) betAwayGoals))
          else (currentHomeGoals, currentAwayGoals)
        else (currentHomeGoals, currentAwayGoals)
      else (currentHomeGoals, currentAwayGoals)
  | None => (currentHomeGoals, currentAwayGoals)
  end.

(** [calculateEnhancedPredictedResult(selectionCombo, selectionLine,
    betTimeScore, currentScore)], lines 119-190.  [betTimeScore] is a
    string or [null]. *)
Definition calculateEnhancedPredictedResult
  (selectionCombo : string) (selectionLine : number)
  (betTimeScore : option string) (currentScore : string) : string :=
  let line := parseFloat selectionLine in
  let scores := map Number (split "-" currentScore) in
  let currentHomeGoals := element Num scores 0 in
  let currentAwayGoals := element Num scores 1 in
  let (adjustedHomeGoals, adjustedAwayGoals) :=
    adjusted_goals betTimeScore currentHomeGoals currentAwayGoals in
  if (selectionCombo =? "Home Team") || (selectionCombo =? "Away Team") then
    let goalDiff :=
      if selectionCombo =? "Home Team"
      then sub (to_number adjustedHomeGoals) (to_number adjustedAwayGoals)
      else sub (to_number adjustedAwayGoals) (to_number adjustedHomeGoals) in
    let adjustedScore := add goalDiff line in
    let rounded := round2 adjustedScore in
    outcome_label rounded
      ++ " - " ++ selectionCombo ++ " (" ++ Number_toString line ++ ") ("
      ++ toString adjustedHomeGoals ++ "-" ++ toString adjustedAwayGoals
      ++ ")"
  else if (selectionCombo =? "Over") || (selectionCombo =? "Under") then
    let totalGoals :=
      add (to_number currentHomeGoals) (to_number currentAwayGoals) in
    let diff :=
      if selectionCombo =? "Over"
      then sub totalGoals line
      else sub line totalGoals in
    let rounded := round2 diff in
    outcome_label rounded
      ++ " - " ++ selectionCombo ++ " (" ++ Number_toString line ++ ") ("
      ++ Number_toString totalGoals ++ " goals)"
  else "Pending".

(** [calculatePayout(result, stake, odds)], lines 242-257. *)
Definition calculatePayout (result : string) (stake odds : number)
  : number :=
  let stakeNum := parseFloat stake in
  let oddsNum := parseFloat odds in
  if startsWith result "Win" then mul stakeNum oddsNum
  else if startsWith result "Half Win" then
    add stakeNum (mul (mul stakeNum (sub oddsNum n1)) n0_5)
  else if startsWith result "Push" then stakeNum
  else if startsWith result "Half Loss" then mul stakeNum n0_5
  else n0.

(** [getEmotionFromResult(result)], lines 264-278. *)
Definition getEmotionFromResult (result : string) : emotion :=
  if startsWith result "Win" then
    mkEmotion "🎉" "joy" "Celebrating win!"
  else if startsWith result "Half Win" then
    mkEmotion "😊" "relief" "Half win - not bad!"
  else if startsWith result "Push" then
    mkEmotion "😐" "neutral" "Push - stake returned"
  else if startsWith result "Half Loss" then
    mkEmotion "😕" "annoyed" "Half loss - could be worse"
  else if startsWith result "Loss" then
    mkEmotion "😡" "anger" "Lost the bet!"
  else
    mkEmotion "🤔" "thinking" "Checking result...".

(** [getInProgressEmotion(prediction)], lines 285-293. *)
Definition getInProgressEmotion (prediction : string) : emotion :=
  if startsWith prediction "Win" || startsWith prediction "Half Win" then
    mkEmotion "🤞" "hopeful" "Looking good!"
  else if startsWith prediction "Loss"
          || startsWith prediction "Half Loss" then
    mkEmotion "😰" "worried" "Not looking good..."
  else
    mkEmotion "😐" "neutral" "Too close to call".

End BettingEngine.

(** ** The contract the specification states over the engine *)

Module Contract.
Import JS BettingEngine.

(** The five outcome classes and the label each carries in a result
    string. *)
Inductive OutcomeClass : Type := Win | HalfWin | Push | HalfLoss | Loss.

Definition label (c : OutcomeClass) : string :=
  match c with
  | Win => "Win"
  | HalfWin => "Half Win"
  | Push => "Push"
  | HalfLoss => "Half Loss"
  | Loss => "Loss"
  end.

(** A result string carries class [c] when it is the label of [c]
    followed by the detail suffix, which starts with [" - "]. *)
Definition has_outcome (result : string) (c : OutcomeClass) : Prop :=
  exists detail, result = label c ++ " - " ++ detail.

(** A score snapshot [{home, away}] as the ["H-A"] string the engine
    receives. *)
Definition string_of_N (n : N) : string :=
  NilZero.string_of_uint (N.to_uint n).

(** Strings made of decimal digits only. *)
Fixpoint digits_only (s : string) : bool :=
  match s with
  | EmptyString => true
  | String c r => is_digit c && digits_only r
  end.

Definition score_string (home away : N) : string :=
  string_of_N home ++ "-" ++ string_of_N away.

Definition snapshot_string (snapshot : option (N * N)) : option string :=
  match snapshot with
  | Some (home, away) => Some (score_string home away)
  | None => None
  end.

(** Goals per side since the snapshot, as integers. *)
Definition since (snapshot : option (N * N)) (home away : N) : Z * Z :=
  match snapshot with
  | Some (bh, ba) => (Z.of_N home - Z.of_N bh, Z.of_N away - Z.of_N ba)%Z
  | None => (Z.of_N home, Z.of_N away)
  end.

(** The margin of the settlement rules: [round2(goalDiff + line)] for a
    team handicap on the goals [home], [away]; [round2(total - line)]
    for Over and [round2(line - total)] for Under. *)
Definition margin (selection : string) (line home away : number)
  : number :=
  if selection =? "Home Team" then round2 (add (sub home away) line)
  else if selection =? "Away Team" then round2 (add (sub away home) line)
  else if selection =? "Over" then round2 (sub (add home away) line)
  else round2 (sub line (add home away)).

(** Steps 1 and 2 of the settlement algorithm on a score snapshot: a
    team handicap is evaluated on the goals since the bet-time snapshot,
    a total on the current score. *)
Definition settlement_margin (selection : string) (line : number)
  (snapshot : option (N * N)) (home away : N) : number :=
  if (selection =? "Home Team") || (selection =? "Away Team") then
    let (h, a) := since snapshot home away in
    margin selection line (of_Z h) (of_Z a)
  else margin selection line (of_Z (Z.of_N home)) (of_Z (Z.of_N away)).

(** The five buckets of a margin: at least 0.5, exactly 0.25, 0 or
    -0.25, at most -0.5. *)
Definition in_bucket (m : number) : bool :=
  ge m n0_5 || strict_eq m n0_25 || strict_eq m n0
  || strict_eq m (neg n0_25) || ge (neg n0_5) m.

(** The margin the engine computes on the texts it receives: the value
    of [rounded] on lines 147 and 172, for any bet-time score and any
    current-score text.  A team handicap uses the adjusted goals, a
    total the current goals; a piece of the score that is missing or
    not a number gives [NaN]. *)
Definition computed_margin (selectionCombo : string)
  (selectionLine : number) (betTimeScore : option string)
  (currentScore : string) : number :=
  let line := parseFloat selectionLine in
  let scores := map Number (split "-" currentScore) in
  let currentHomeGoals := element Num scores 0 in
  let currentAwayGoals := element Num scores 1 in
  let (adjustedHomeGoals, adjustedAwayGoals) :=
    adjusted_goals betTimeScore currentHomeGoals currentAwayGoals in
  if (selectionCombo =? "Home Team") || (selectionCombo =? "Away Team") then
    margin selectionCombo line
      (to_number adjustedHomeGoals) (to_number adjustedAwayGoals)
  else
    margin selectionCombo line
      (to_number currentHomeGoals) (to_number currentAwayGoals).

(** Step 3 of the settlement algorithm: the table that reads the class
    of a result off the margin [m]. *)
Definition classified_by_margin (m : Qc) (result : string) : Prop :=
  (has_outcome result Win <-> (qc 1 2 <= m)%Qc)
  /\ (has_outcome result HalfWin <-> m = qc 1 4)
  /\ (has_outcome result Push <-> m = qc 0 1)
  /\ (has_outcome result HalfLoss <-> m = qc (-1) 4)
  /\ (has_outcome result Loss <-> (m <= qc (-1) 2)%Qc).

(** A bet-time score the engine does not read as a snapshot: the
    negation of the guards of lines 127-132. *)
Definition bet_time_score_unreadable (betTimeScore : string) : Prop :=
  let parts := split "-" (remove_whitespace betTimeScore) in
  betTimeScore = ""
  \/ betTimeScore = "N/A"
  \/ List.length parts <> 2%nat
  \/ parseInt (nth 0 parts "") = NaN
  \/ parseInt (nth 1 parts "") = NaN.

Definition selections : list string :=
  ["Home Team"; "Away Team"; "Over"; "Under"].

(** How a call completes.  The taxonomy of the specification names four
    errors; the source has no [throw] statement and the builtins it
    calls on strings and numbers do not throw, so each operation
    completes by returning the value of the function that implements
    it. *)
Inductive error : Type :=
| InvalidSelection
| InvalidScore
| InvalidArgument
| UnclassifiableMargin.

Inductive completion (A : Type) : Type :=
| Returns (v : A)
| Fails (e : error).
Arguments Returns {A} v.
Arguments Fails {A} e.

Definition classifyOutcome (selectionType : string) (line : number)
  (betTimeScore : option string) (currentScore : string)
  : completion string :=
  Returns (calculateEnhancedPredictedResult
             selectionType line betTimeScore currentScore).

Definition computePayout (outcome : string) (stake odds : number)
  : completion number :=
  Returns (calculatePayout outcome stake odds).

End Contract.

(** ** The engine's arithmetic on binary64 *)

Module Binary64.
Import Floats.

(** The binary64 value of an integer below 2^53 in magnitude. *)
Definition of_Z (z : Z) : float :=
  if (z <? 0)%Z then (- PrimFloat.of_uint63 (Uint63.of_Z (- z)))%float
  else PrimFloat.of_uint63 (Uint63.of_Z z).

(** [k / 4] as a double. *)
Definition quarter (k : Z) : float := (of_Z k / of_Z 4)%float.

(** [Math.round] on a double: a finite [x = n * 2^e] with [e < 0] goes
    to [floor(x + 1/2)], computed on integers; anything else is already
    an integer, a zero, an infinity or [NaN]. *)
Definition Math_round (x : float) : float :=
  match Prim2SF x with
  | S754_finite s m e =>
      if (0 <=? e)%Z then x
      else
        let n := if s then Zneg m else Zpos m in
        of_Z (Z.shiftr (n + 2 ^ (- e - 1)) (- e))
  | _ => x
  end.

(** [Math.round(x * 100) / 100] *)
Definition round2 (x : float) : float :=
  (Math_round (x * 100) / 100)%float.

(** The result chain, with [>=] and [===] of the machine. *)
Definition outcome_label (rounded : float) : string :=
  if (0.5 <=? rounded)%float then "Win"
  else if (rounded =? 0.25)%float then "Half Win"
  else if (rounded =? 0)%float then "Push"
  else if (rounded =? -0.25)%float then "Half Loss"
  else "Loss".

(** The margin of the settlement rules, with the machine's arithmetic. *)
Definition margin (selection : string) (line home away : float) : float :=
  if selection =? "Home Team" then round2 (home - away + line)%float
  else if selection =? "Away Team" then round2 (away - home + line)%float
  else if selection =? "Over" then round2 (home + away - line)%float
  else round2 (line - (home + away))%float.

(** [calculatePayout] with the machine's arithmetic. *)
Definition calculatePayout (result : string) (stake odds : float)
  : float :=
  let stakeNum := stake in
  let oddsNum := odds in
  if JS.startsWith result "Win" then (stakeNum * oddsNum)%float
  else if JS.startsWith result "Half Win" then
    (stakeNum + (stakeNum * (oddsNum - 1) * 0.5))%float
  else if JS.startsWith result "Push" then stakeNum
  else if JS.startsWith result "Half Loss" then (stakeNum * 0.5)%float
  else 0%float.

(** The double nearest to 1.86, which is what the literal [1.86]
    denotes: 0x1.dc28f5c28f5c3p+0. *)
Definition odds_1_86 : float := (of_Z 186 / of_Z 100)%float.

Definition literal_1_86 : float := 0x1.dc28f5c28f5c3p+0%float.

Definition half : float := 0.5%float.

Definition eighth : float := 0.125%float.

(** Agreement of the machine's label with the exact one at a line
    [k/4] and goals [home], [away]. *)
Definition agrees (selection : string) (k home away : Z) : bool :=
  outcome_label (margin selection (quarter k) (of_Z home) (of_Z away))
  =? BettingEngine.outcome_label
       (Contract.margin selection (JS.Fin (JS.qc k 4))
          (JS.of_Z home) (JS.of_Z away)).

Definition Z_range (lo : Z) (n : nat) : list Z :=
  map (fun i => (lo + Z.of_nat i)%Z) (seq 0 n).

End Binary64.

(** ** More builtins: comparison, remainder, text search, [parseFloat] *)

Module Builtins.
Import JS.

(** [x < y] and [x > y]: false as soon as one side is [NaN]. *)
Definition lt (x y : number) : bool :=
  match x, y with
  | NaN, _ | _, NaN => false
  | Fin a, Fin b => Qc_ltb a b
  | PosInf, _ => false
  | _, PosInf => true
  | NegInf, NegInf => false
  | NegInf, _ => true
  | _, NegInf => false
  end.

Definition gt (x y : number) : bool := lt y x.

(** The integer part of a rational, towards zero. *)
Definition truncate (a : Qc) : Z :=
  if Qle_bool 0 (this a) then Qfloor (this a) else Qceiling (this a).

(** [x % y]: the remainder has the sign of the dividend; [NaN] when the
    dividend is infinite or the divisor is zero, the dividend itself
    when the divisor is infinite. *)
Definition rem (x y : number) : number :=
  match x, y with
  | NaN, _ | _, NaN => NaN
  | PosInf, _ | NegInf, _ => NaN
  | Fin a, PosInf | Fin a, NegInf => Fin a
  | Fin a, Fin b =>
      if Qc_eqb b 0 then NaN
      else Fin (a - b * qc (truncate (a / b)) 1)
  end.

(** [x || d] on a value that is a number or [undefined]: the default
    replaces [undefined], [0] and [NaN]. *)
Definition or_default (v : value) (d : number) : number :=
  match v with
  | Undefined => d
  | Num NaN => d
  | Num (Fin a) => if Qc_eqb a 0 then d else Fin a
  | Num n => n
  end.

(** [s.includes(sub)] *)
Fixpoint includes (s sub : string) : bool :=
  startsWith s sub
  || match s with
     | EmptyString => false
     | String _ r => includes r sub
     end.

(** [s.toLowerCase()] on ASCII letters; bytes of other characters are
    left alone. *)
Definition lower_char (c : ascii) : ascii :=
  let n := nat_of_ascii c in
  if ((65 <=? n) && (n <=? 90))%nat then ascii_of_nat (n + 32) else c.

Fixpoint toLowerCase (s : string) : string :=
  match s with
  | EmptyString => EmptyString
  | String c r => String (lower_char c) (toLowerCase r)
  end.

Definition is_alpha (c : ascii) : bool :=
  let n := nat_of_ascii c in
  ((65 <=? n) && (n <=? 90) || (97 <=? n) && (n <=? 122))%nat.

(** The class [[0-9.]]. *)
Definition is_number_char (c : ascii) : bool :=
  is_digit c || Ascii.eqb c ".".

(** The class [[+-]]. *)
Definition is_sign (c : ascii) : bool :=
  Ascii.eqb c "+" || Ascii.eqb c "-".

(** The exponent a decimal literal may end with: [e] or [E], an
    optional sign and at least one digit.  Anything else is no exponent
    and is left unread. *)
Definition exponent_prefix (s : string) : Z :=
  match s with
  | String e r =>
      if (Ascii.eqb e "e" || Ascii.eqb e "E")%bool then
        let (sign, r') := read_sign r in
        let (ds, _) := span is_digit r' in
        if ds =? EmptyString then 0%Z
        else (sign * Z.of_N (digits_value 10 0 ds))%Z
      else 0%Z
  | EmptyString => 0%Z
  end.

(** [parseFloat(s)] on a string: leading white space is skipped and the
    longest prefix that is a decimal literal is read (a sign, then
    [Infinity] or digits with an optional fraction and exponent); [NaN]
    when there is none. *)
Definition parseFloat_string (s : string) : number :=
  let (sign, u) := read_sign (trim_start s) in
  if startsWith u "Infinity" then signed_inf sign
  else
    let (ip, r1) := span is_digit u in
    let (fp, r2) :=
      match r1 with
      | String "." r => span is_digit r
      | _ => (EmptyString, r1)
      end in
    if (ip =? EmptyString) && (fp =? EmptyString) then NaN
    else
      Fin (qc sign 1
           * (qc (Z.of_N (digits_value 10 0 (ip ++ fp))) 1
              * pow10 (exponent_prefix r2 - Z.of_nat (String.length fp)))).

(** Drop the first [n] characters. *)
Fixpoint drop (n : nat) (s : string) : string :=
  match n, s with
  | O, _ => s
  | S n', String _ r => drop n' r
  | S _, EmptyString => EmptyString
  end.

End Builtins.

(** ** The text-based settlement path ([js/betting-engine.js], lines
    12-109 and 200-233) *)

Module Legacy.
Import JS Builtins BettingEngine.

(** One attempt of [/(Under|Over)\s([0-9.]+)/] at the start of [s] for
    the alternative [direction]: the word, one white space character and
    the longest non-empty run of [[0-9.]]. *)
Definition goal_line_word (direction s : string)
  : option (string * string) :=
  if startsWith s direction then
    match drop (String.length direction) s with
    | String w r =>
        if is_whitespace w then
          let (num, _) := span is_number_char r in
          if num =? EmptyString then None else Some (direction, num)
        else None
    | EmptyString => None
    end
  else None.

Definition goal_line_at (s : string) : option (string * string) :=
  match goal_line_word "Under" s with
  | Some m => Some m
  | None => goal_line_word "Over" s
  end.

(** [bet.match(/(Under|Over)\s([0-9.]+)/)]: the leftmost match, as the
    captured direction and number text. *)
Fixpoint goal_line_match (s : string) : option (string * string) :=
  match goal_line_at s with
  | Some m => Some m
  | None =>
      match s with
      | EmptyString => None
      | String _ r => goal_line_match r
      end
  end.

Definition n0_75 : number := Fin (qc 3 4).

(** [evaluateGoalLine(bet, totalGoals)], lines 12-49. *)
Definition evaluateGoalLine (bet : string) (totalGoals : number) : string :=
  match goal_line_match bet with
  | None => "Invalid"
  | Some (direction, text) =>
      let line := parseFloat_string text in
      let isQuarterLine :=
        strict_eq (rem line n1) n0_25 || strict_eq (rem line n1) n0_75 in
      if direction =? "Under" then
        if lt totalGoals line then
          if isQuarterLine && strict_eq totalGoals (sub line n0_25)
          then "Half Win"
          else "Win"
        else if strict_eq totalGoals line then
          if isQuarterLine then "Half Loss" else "Push"
        else if isQuarterLine && strict_eq totalGoals (add line n0_25) then
          "Half Loss"
        else "Loss"
      else
        if gt totalGoals line then
          if isQuarterLine && strict_eq totalGoals (add line n0_25)
          then "Half Win"
          else "Win"
        else if strict_eq totalGoals line then
          if isQuarterLine then "Half Loss" else "Push"
        else if isQuarterLine && strict_eq totalGoals (sub line n0_25) then
          "Half Loss"
        else "Loss"
  end.

(** The tail [\s([+-][0-9.]+)] of the handicap pattern at the start of
    [s]: the captured sign and number text. *)
Definition handicap_tail (s : string) : option string :=
  match s with
  | String w (String sg r) =>
      if is_whitespace w && is_sign sg then
        let (num, _) := span is_number_char r in
        if num =? EmptyString then None else Some (String sg num)
      else None
  | _ => None
  end.

(** [bet.match(/^([A-Za-z\s]+?)\s([+-][0-9.]+)/)]: the first group is
    the shortest non-empty run of letters and white space that the tail
    can follow. *)
Fixpoint handicap_match (s : string) : option (string * string) :=
  match s with
  | EmptyString => None
  | String c r =>
      if is_alpha c || is_whitespace c then
        match handicap_tail r with
        | Some number => Some (String c EmptyString, number)
        | None =>
            match handicap_match r with
            | Some (team, number) => Some (String c team, number)
            | None => None
            end
        end
      else None
  end.

(** [evaluateHandicap(bet, homeTeam, awayTeam, homeGoals, awayGoals)],
    lines 60-109. *)
Definition evaluateHandicap (bet homeTeam awayTeam : string)
  (homeGoals awayGoals : number) : string :=
  match handicap_match bet with
  | None => "Invalid"
  | Some (team, text) =>
      let backedTeam := trim team in
      let handicap := parseFloat_string text in
      let isBackingHome := backedTeam =? homeTeam in
      let isBackingAway := backedTeam =? awayTeam in
      let backedTeamLower := toLowerCase backedTeam in
      let homeTeamLower := toLowerCase homeTeam in
      let awayTeamLower := toLowerCase awayTeam in
      if negb isBackingHome && negb isBackingAway
         && negb (includes homeTeamLower backedTeamLower
                  || includes backedTeamLower homeTeamLower)
         && negb (includes awayTeamLower backedTeamLower
                  || includes backedTeamLower awayTeamLower)
      then "Team Not Found"
      else
        let netScore :=
          if isBackingHome
             || includes (toLowerCase homeTeam) (toLowerCase backedTeam)
          then sub homeGoals awayGoals
          else sub awayGoals homeGoals in
        let adjustedScore := add netScore handicap in
        if ge adjustedScore n0_5 then "Win"
        else if strict_eq adjustedScore n0_25 then "Half Win"
        else if strict_eq adjustedScore n0 then "Push"
        else if strict_eq adjustedScore (neg n0_25) then "Half Loss"
        else "Loss"
  end.

(** [selection.match(/[+-][0-9.]+/)] as a test: a sign followed by a
    digit or a point somewhere in the text. *)
Fixpoint has_signed_number (s : string) : bool :=
  match s with
  | String sg ((String c _) as r) =>
      is_sign sg && is_number_char c || has_signed_number r
  | _ => false
  end.

(** A string argument that may be missing ([null] or [undefined]):
    falsy when missing or empty. *)
Definition present (s : option string) : bool :=
  match s with
  | Some t => truthy t
  | None => false
  end.

Definition text (s : option string) : string :=
  match s with
  | Some t => t
  | None => EmptyString
  end.

(** [calculatePredictedResult(selection, scoreText, homeTeam, awayTeam)],
    lines 200-233.  On strings nothing inside the [try] block throws, so
    the [catch] branch, which returns ['Error'], is never taken. *)
Definition calculatePredictedResult
  (selection scoreText homeTeam awayTeam : option string) : string :=
  if negb (present scoreText) || (text scoreText =? "N/A")
     || negb (present selection)
  then "N/A"
  else
    let scoreParts := split "-" (remove_whitespace (text scoreText)) in
    if negb (List.length scoreParts =? 2)%nat then "Invalid Score"
    else
      let homeGoals := parseInt (nth 0 scoreParts "") in
      let awayGoals := parseInt (nth 1 scoreParts "") in
      if isNaN homeGoals || isNaN awayGoals then "Invalid Score"
      else
        let totalGoals := add homeGoals awayGoals in
        if includes (text selection) "Under"
           || includes (text selection) "Over"
        then evaluateGoalLine (text selection) totalGoals
        else if has_signed_number (text selection) then
          if negb (present homeTeam) || negb (present awayTeam)
          then "Missing Team Info"
          else evaluateHandicap (text selection) (text homeTeam)
                 (text awayTeam) homeGoals awayGoals
        else "Unknown Bet Type".

End Legacy.

(** ** The simulation's use of the engine ([js/simulation.js]) *)

Module Simulation.
Import JS Builtins.

(** [character.stats] *)
Record stats : Type := mkStats {
  totalBets : number;
  totalWins : number;
  totalLosses : number;
  totalStaked : number;
  totalPayout : number;
  netProfit : number
}.

(** A character, lines 60-82, without the screen positions. *)
Record character : Type := mkCharacter {
  name : string;
  bankroll : number;
  state : string;
  emotion : BettingEngine.emotion;
  activeBets : list string;
  char_stats : stats
}.

(** [createCharacter(name)] *)
Definition createCharacter (name : string) : character :=
  mkCharacter name (of_Z 10000) "idle"
    (BettingEngine.mkEmotion "😐" "neutral" "Ready to bet") []
    (mkStats (of_Z 0) (of_Z 0) (of_Z 0) (of_Z 0) (of_Z 0) (of_Z 0)).

(** [bet.stake] as [typeof] sees it. *)
Inductive stake_field : Type :=
| StakeText (s : string)
| StakeNumber (n : number)
| StakeOther.

(** The fields of a bet record the settlement reads.  A text field is
    [None] when it is [null] or [undefined]. *)
Record bet : Type := mkBet {
  id : string;
  Bet_Selection : option string;
  bet_selection : option string;
  selection_combo : option string;
  recommendation : option string;
  selection_line : number;
  bet_time_score : option string;
  stake : stake_field;
  parsedStake : value;
  price : number
}.

(** The score fields of an event. *)
Record event : Type := mkEvent {
  homeScore : value;
  awayScore : value
}.

(** [a || b] on text fields. *)
Definition or_else (a b : option string) : option string :=
  if Legacy.present a then a else b.

(** Lines 797-818, repeated at lines 907-927: the selection handed to
    the engine. *)
Definition selectionCombo (b : bet) : string :=
  let selectionCombo := or_else (Bet_Selection b) (bet_selection b) in
  let selectionCombo :=
    if negb (Legacy.present selectionCombo) then
      let rec :=
        toLowerCase
          (Legacy.text (or_else (selection_combo b) (recommendation b))) in
      if includes rec "over" then "Over"
      else if includes rec "under" then "Under"
      else if includes rec "home" || includes rec "handicap" then
        if ge (selection_line b) BettingEngine.n0 then "Away Team"
        else "Home Team"
      else "Home Team"
    else Legacy.text selectionCombo in
  let selectionCombo :=
    if selectionCombo =? "Home" then "Home Team" else selectionCombo in
  if selectionCombo =? "Away" then "Away Team" else selectionCombo.

(** [`${event.homeScore || 0}-${event.awayScore || 0}`] *)
Definition score_text (e : event) : string :=
  Number_toString (or_default (homeScore e) BettingEngine.n0)
  ++ "-" ++ Number_toString (or_default (awayScore e) BettingEngine.n0).

(** [x++] on a counter. *)
Definition increment (x : number) : number := add x BettingEngine.n1.

(** [bet.stake.replace(/[£$€,]/g, '')] on the UTF-8 bytes of the text. *)
Fixpoint remove_currency (s : string) : string :=
  match s with
  | EmptyString => EmptyString
  | String c r =>
      if Ascii.eqb c "$" || Ascii.eqb c "," then remove_currency r
      else
        match r with
        | String c2 r2 =>
            if (nat_of_ascii c =? 194)%nat && (nat_of_ascii c2 =? 163)%nat
            then remove_currency r2
            else
              match r2 with
              | String c3 r3 =>
                  if (nat_of_ascii c =? 226)%nat
                     && (nat_of_ascii c2 =? 130)%nat
                     && (nat_of_ascii c3 =? 172)%nat
                  then remove_currency r3
                  else String c (remove_currency r)
              | EmptyString => String c (remove_currency r)
              end
        | EmptyString => String c EmptyString
        end
  end.

(** Lines 667-676: the stake a bet is placed with. *)
Definition stake_of (b : bet) : number :=
  match stake b with
  | StakeText s =>
      or_default (Num (parseFloat_string (remove_currency s))) (of_Z 100)
  | StakeNumber n => n
  | StakeOther => of_Z 100
  end.

(** [placeBet(character, bet)], lines 663-707, up to the first [await]:
    the character and the bet as the assignments leave them. *)
Definition placeBet (c : character) (b : bet) : character * bet :=
  let stake := stake_of b in
  let b' :=
    mkBet (id b) (Bet_Selection b) (bet_selection b) (selection_combo b)
      (recommendation b) (selection_line b) (bet_time_score b)
      (Simulation.stake b) (Num stake) (price b) in
  let st := char_stats c in
  let st' :=
    mkStats (increment (totalBets st)) (totalWins st) (totalLosses st)
      (add (totalStaked st) stake) (totalPayout st) (netProfit st) in
  (mkCharacter (name c) (sub (bankroll c) stake) "placing_bet"
     (BettingEngine.mkEmotion "💰" "placing" "Placing bet")
     (activeBets c) st',
   b').

(** The result string [settleBet] computes, lines 790-826. *)
Definition settlement_result (b : bet) (e : event) : string :=
  BettingEngine.calculateEnhancedPredictedResult
    (selectionCombo b) (selection_line b) (bet_time_score b) (score_text e).

(** The payout [settleBet] computes, lines 833-836. *)
Definition settlement_payout (b : bet) (e : event) : number :=
  let stake := or_default (parsedStake b) (of_Z 100) in
  BettingEngine.calculatePayout (settlement_result b e) stake (price b).

(** [settleBet(bet, event, character)], lines 788-870, up to the first
    [await]: the character as the assignments leave it. *)
Definition settleBet (b : bet) (e : event) (c : character) : character :=
  let result := settlement_result b e in
  let payout := settlement_payout b e in
  let emotion := BettingEngine.getEmotionFromResult result in
  let st := char_stats c in
  let totalPayout' := add (totalPayout st) payout in
  let totalWins' :=
    if startsWith result "Win" then increment (totalWins st)
    else totalWins st in
  let totalLosses' :=
    if startsWith result "Win" then totalLosses st
    else if startsWith result "Loss" then increment (totalLosses st)
    else totalLosses st in
  mkCharacter (name c) (add (bankroll c) payout)
    (BettingEngine.state emotion) emotion
    (filter (fun i => negb (i =? id b)) (activeBets c))
    (mkStats (totalBets st) totalWins' totalLosses' (totalStaked st)
       totalPayout' (sub totalPayout' (totalStaked st))).

(** [updateInProgressBet(bet, event, character)], lines 898-943. *)
Definition updateInProgressBet (b : bet) (e : event) (c : character)
  : character :=
  let prediction := settlement_result b e in
  let emotion := BettingEngine.getInProgressEmotion prediction in
  mkCharacter (name c) (bankroll c) (BettingEngine.state emotion) emotion
    (activeBets c) (char_stats c).

End Simulation.

(** ** Vocabulary of the further properties *)

Module Facts.
Import JS Builtins BettingEngine Contract.

(** The class on the other side of the same bet. *)
Definition mirror (c : OutcomeClass) : OutcomeClass :=
  match c with
  | Win => Loss
  | HalfWin => HalfLoss
  | Push => Push
  | HalfLoss => HalfWin
  | Loss => Win
  end.

(** The class of a margin of [n] quarters. *)
Definition class_of_quarters (n : Z) : OutcomeClass :=
  if (2 <=? n)%Z then Win
  else if (n =? 1)%Z then HalfWin
  else if (n =? 0)%Z then Push
  else if (n =? -1)%Z then HalfLoss
  else Loss.

(** What each class is paid. *)
Definition payout_of (c : OutcomeClass) (stake odds : number) : number :=
  match c with
  | Win => mul stake odds
  | HalfWin => add stake (mul (mul stake (sub odds n1)) n0_5)
  | Push => stake
  | HalfLoss => mul stake n0_5
  | Loss => n0
  end.

(** The fraction of a quarter line as a bet text writes it. *)
Inductive fraction : Type := Whole | Quarter | Half | ThreeQuarters.

Definition fraction_text (f : fraction) : string :=
  match f with
  | Whole => ""
  | Quarter => ".25"
  | Half => ".5"
  | ThreeQuarters => ".75"
  end.

Definition fraction_quarters (f : fraction) : Z :=
  match f with
  | Whole => 0
  | Quarter => 1
  | Half => 2
  | ThreeQuarters => 3
  end.

(** A non-negative quarter line: its text and its number of quarters. *)
Definition line_text (whole : N) (f : fraction) : string :=
  string_of_N whole ++ fraction_text f.

Definition line_quarters (whole : N) (f : fraction) : Z :=
  4 * Z.of_N whole + fraction_quarters f.

Fixpoint all_chars (p : ascii -> bool) (s : string) : bool :=
  match s with
  | EmptyString => true
  | String c r => p c && all_chars p r
  end.

(** Letters and white space, the characters of a team name in a bet
    text. *)
Definition is_name_char (c : ascii) : bool := is_alpha c || is_whitespace c.

(** Occurrences of a character. *)
Fixpoint count (c : ascii) (s : string) : nat :=
  match s with
  | EmptyString => O
  | String a r => if Ascii.eqb a c then S (count c r) else count c r
  end.

(** The selections the simulation accepts by name: the four of the
    engine and the two short forms it expands. *)
Definition named_selections : list string :=
  ["Home Team"; "Away Team"; "Over"; "Under"; "Home"; "Away"].

(** The winning side of a bet. *)
Definition winning (c : OutcomeClass) : Prop := c = Win \/ c = HalfWin.

End Facts.

(** ** Properties *)

Import JS BettingEngine Contract.

(** *** Worked scenarios *)

Example over_2_5_at_2_1 :
  calculateEnhancedPredictedResult "Over" (Fin (qc 5 2)) None "2-1"
  = "Win - Over (2.5) (3 goals)".
Proof. vm_compute. reflexivity. Qed.

Example over_2_75_at_2_1 :
  calculateEnhancedPredictedResult "Over" (Fin (qc 11 4)) None "2-1"
  = "Half Win - Over (2.75) (3 goals)".
Proof. vm_compute. reflexivity. Qed.

Example over_2_75_at_1_1 :
  calculateEnhancedPredictedResult "Over" (Fin (qc 11 4)) None "1-1"
  = "Loss - Over (2.75) (2 goals)".
Proof. vm_compute. reflexivity. Qed.

Example under_2_25_at_1_1 :
  calculateEnhancedPredictedResult "Under" (Fin (qc 9 4)) (Some "N/A") "1-1"
  = "Half Win - Under (2.25) (2 goals)".
Proof. vm_compute. reflexivity. Qed.

Example home_minus_half_at_2_1 :
  calculateEnhancedPredictedResult "Home Team" (Fin (qc (-1) 2)) None "2-1"
  = "Win - Home Team (-0.5) (2-1)".
Proof. vm_compute. reflexivity. Qed.

Example home_quarter_at_0_0 :
  calculateEnhancedPredictedResult
    "Home Team" (Fin (qc 1 4)) (Some "0-0") "0-0"
  = "Half Win - Home Team (0.25) (0-0)".
Proof. vm_compute. reflexivity. Qed.

Example away_quarter_since_1_0 :
  calculateEnhancedPredictedResult
    "Away Team" (Fin (qc (-1) 4)) (Some "1 - 0") " 2 - 1 "
  = "Half Loss - Away Team (-0.25) (1-1)".
Proof. vm_compute. reflexivity. Qed.

Example current_score_without_away :
  calculateEnhancedPredictedResult "Home Team" (Fin (qc 1 4)) None "5"
  = "Loss - Home Team (0.25) (5-undefined)".
Proof. vm_compute. reflexivity. Qed.

Example builtins_on_strings :
  Number " 12 " = of_Z 12 /\ Number "" = of_Z 0 /\ Number "abc" = NaN
  /\ Number "0x1F" = of_Z 31 /\ Number "1e" = NaN /\ Number "." = NaN
  /\ parseInt "12abc" = of_Z 12 /\ parseInt "  -7" = of_Z (-7)
  /\ parseInt "0x1f" = of_Z 31 /\ parseInt "x" = NaN
  /\ parseInt "1.9" = of_Z 1
  /\ split "-" "-1-2" = [""; "1"; "2"] /\ split "-" "" = [""]
  /\ Math_round (Fin (qc 25 2)) = of_Z 13
  /\ Math_round (Fin (qc (-25) 2)) = of_Z (-12)
  /\ Number_toString (Fin (qc (-11) 4)) = "-2.75".
Proof. repeat split; vm_compute; reflexivity. Qed.

(** *** Exact arithmetic against binary64 *)

Lemma In_Z_range lo n z :
  (lo <= z < lo + Z.of_nat n)%Z -> In z (Binary64.Z_range lo n).
Proof.
  intro H. unfold Binary64.Z_range. apply in_map_iff.
  exists (Z.to_nat (z - lo)). split; [lia|].
  apply in_seq. lia.
Qed.

Lemma forallb_In {A : Type} (f : A -> bool) (l : list A) (x : A) :
  forallb f l = true -> In x l -> f x = true.
Proof. intros H Hin. exact (proj1 (forallb_forall f l) H x Hin). Qed.

(** Lines from -10 to 10 in steps of 0.25, goals per side from -8 to 8
    (goals since a snapshot may be negative), all four selections. *)
Lemma binary64_agrees_on_grid :
  forallb (fun sel =>
    forallb (fun k =>
      forallb (fun home =>
        forallb (fun away => Binary64.agrees sel k home away)
                (Binary64.Z_range (-8) 17))
              (Binary64.Z_range (-8) 17))
            (Binary64.Z_range (-40) 81))
          selections
  = true.
Proof. vm_compute. reflexivity. Qed.

(** On that grid the label computed with binary64 arithmetic is the
    label computed with exact arithmetic. *)
Lemma binary64_label_is_exact sel k home away :
  In sel selections ->
  (-40 <= k <= 40)%Z -> (-8 <= home <= 8)%Z -> (-8 <= away <= 8)%Z ->
  Binary64.outcome_label
    (Binary64.margin sel (Binary64.quarter k)
       (Binary64.of_Z home) (Binary64.of_Z away))
  = outcome_label (margin sel (Fin (qc k 4)) (of_Z home) (of_Z away)).
Proof.
  intros Hsel Hk Hh Ha.
  assert (Hk' : In k (Binary64.Z_range (-40) 81))
    by (apply In_Z_range; lia).
  assert (Hh' : In home (Binary64.Z_range (-8) 17))
    by (apply In_Z_range; lia).
  assert (Ha' : In away (Binary64.Z_range (-8) 17))
    by (apply In_Z_range; lia).
  pose proof (forallb_In _ _ _ binary64_agrees_on_grid Hsel) as H1.
  pose proof (forallb_In _ _ _ H1 Hk') as H2.
  pose proof (forallb_In _ _ _ H2 Hh') as H3.
  pose proof (forallb_In _ _ _ H3 Ha') as H4.
  apply String.eqb_eq, H4.
Qed.

Example binary64_eighth_is_loss :
  Binary64.round2 Binary64.eighth
  = PrimFloat.div (Binary64.of_Z 13) (Binary64.of_Z 100)
  /\ Binary64.outcome_label
       (Binary64.margin "Home Team" Binary64.eighth
          (Binary64.of_Z 0) (Binary64.of_Z 0))
     = "Loss".
Proof. split; vm_compute; reflexivity. Qed.

(** *** Decimal strings and the builtins that read them *)

Ltac digit_cases c H :=
  destruct c as [[|] [|] [|] [|] [|] [|] [|] [|]];
  try (vm_compute in H; discriminate H).

Lemma digit_not_whitespace c : is_digit c = true -> is_whitespace c = false.
Proof. intro H. digit_cases c H; reflexivity. Qed.

Lemma digit_not_separator c : is_digit c = true -> Ascii.eqb c "-" = false.
Proof. intro H. digit_cases c H; reflexivity. Qed.

Lemma digit_is_radix10 c : is_digit c = true -> is_radix_digit 10 c = true.
Proof. intro H. digit_cases c H; reflexivity. Qed.

Lemma digits_only_cons c s :
  digits_only (String c s) = true ->
  is_digit c = true /\ digits_only s = true.
Proof. simpl. intro H. apply andb_true_iff in H. exact H. Qed.

Lemma trim_start_digits s :
  digits_only s = true -> trim_start s = s.
Proof.
  destruct s as [|c s]; [reflexivity|].
  intro H. apply digits_only_cons in H. destruct H as [Hc _].
  simpl. rewrite (digit_not_whitespace c Hc). reflexivity.
Qed.

Lemma trim_end_digits s :
  digits_only s = true -> trim_end s = s.
Proof.
  induction s as [|c s IH]; [reflexivity|].
  intro H. apply digits_only_cons in H. destruct H as [Hc Hs].
  simpl. rewrite (digit_not_whitespace c Hc), (IH Hs). reflexivity.
Qed.

Lemma trim_digits s : digits_only s = true -> trim s = s.
Proof.
  intro H. unfold trim. rewrite (trim_start_digits s H).
  apply trim_end_digits, H.
Qed.

Lemma remove_whitespace_digits s :
  digits_only s = true -> remove_whitespace s = s.
Proof.
  induction s as [|c s IH]; [reflexivity|].
  intro H. apply digits_only_cons in H. destruct H as [Hc Hs].
  simpl. rewrite (digit_not_whitespace c Hc), (IH Hs). reflexivity.
Qed.

Lemma remove_whitespace_app s t :
  remove_whitespace (s ++ t) = remove_whitespace s ++ remove_whitespace t.
Proof.
  induction s as [|c s IH]; [reflexivity|].
  simpl. destruct (is_whitespace c); simpl; rewrite IH; reflexivity.
Qed.

Lemma split_digits s :
  digits_only s = true -> split "-" s = [s].
Proof.
  induction s as [|c s IH]; [reflexivity|].
  intro H. apply digits_only_cons in H. destruct H as [Hc Hs].
  cbn [split]. rewrite (digit_not_separator c Hc), (IH Hs). reflexivity.
Qed.

Lemma split_digits_app s t :
  digits_only s = true ->
  split "-" (s ++ "-" ++ t) = s :: split "-" t.
Proof.
  induction s as [|c s IH]; intro H.
  - reflexivity.
  - apply digits_only_cons in H. destruct H as [Hc Hs].
    change (String c s ++ "-" ++ t) with (String c (s ++ "-" ++ t)).
    cbn [split]. rewrite (digit_not_separator c Hc), (IH Hs). reflexivity.
Qed.

Lemma span_digits s :
  digits_only s = true -> span is_digit s = (s, "").
Proof.
  induction s as [|c s IH]; [reflexivity|].
  intro H. apply digits_only_cons in H. destruct H as [Hc Hs].
  simpl. rewrite Hc, (IH Hs). reflexivity.
Qed.

Lemma span_radix10_digits s :
  digits_only s = true -> span (is_radix_digit 10) s = (s, "").
Proof.
  induction s as [|c s IH]; [reflexivity|].
  intro H. apply digits_only_cons in H. destruct H as [Hc Hs].
  simpl. rewrite (digit_is_radix10 c Hc), (IH Hs). reflexivity.
Qed.

(** A string of digits has no sign, no radix prefix and is not the
    word [Infinity]. *)
Lemma read_sign_digits s :
  digits_only s = true -> read_sign s = (1%Z, s).
Proof.
  destruct s as [|c s]; [reflexivity|].
  intro H. apply digits_only_cons in H. destruct H as [Hc _].
  digit_cases c Hc; reflexivity.
Qed.

Lemma non_decimal_literal_digits s :
  digits_only s = true -> non_decimal_literal s = None.
Proof.
  destruct s as [|c [|c' s]]; try reflexivity; intro H.
  - apply digits_only_cons in H. destruct H as [Hc _].
    digit_cases c Hc; reflexivity.
  - apply digits_only_cons in H. destruct H as [Hc H].
    apply digits_only_cons in H. destruct H as [Hc' _].
    digit_cases c Hc; try reflexivity.
    digit_cases c' Hc'; reflexivity.
Qed.

Lemma radix_prefix_digits s :
  digits_only s = true ->
  match s with
  | String "0" (String x r) =>
      if (Ascii.eqb x "x" || Ascii.eqb x "X")%bool then (16%N, r)
      else (10%N, s)
  | _ => (10%N, s)
  end = (10%N, s).
Proof.
  destruct s as [|c [|c' s]]; try reflexivity; intro H.
  - apply digits_only_cons in H. destruct H as [Hc _].
    digit_cases c Hc; reflexivity.
  - apply digits_only_cons in H. destruct H as [Hc H].
    apply digits_only_cons in H. destruct H as [Hc' _].
    digit_cases c Hc; try reflexivity.
    digit_cases c' Hc'; reflexivity.
Qed.

Lemma digits_not_infinity s :
  digits_only s = true -> (s =? "Infinity") = false.
Proof.
  destruct s as [|c s]; [reflexivity|].
  intro H. apply digits_only_cons in H. destruct H as [Hc _].
  digit_cases c Hc; reflexivity.
Qed.

Lemma digits_nonempty_eqb s :
  s <> "" -> (s =? "") = false.
Proof. destruct s; [congruence | reflexivity]. Qed.

Lemma append_empty_r s : s ++ "" = s.
Proof. induction s as [|c s IH]; simpl; [|rewrite IH]; reflexivity. Qed.

Lemma Qc_one_mul_mul_one (x : Qc) : (qc 1 1 * (x * qc 1 1))%Qc = x.
Proof. change (qc 1 1) with 1%Qc. ring. Qed.

(** [Number] and [parseInt] read a non-empty string of digits as the
    integer it spells. *)
Lemma Number_digits s :
  digits_only s = true -> s <> "" ->
  Number s = of_Z (Z.of_N (digits_value 10 0 s)).
Proof.
  intros H Hne. unfold Number.
  rewrite (trim_digits s H), (digits_nonempty_eqb s Hne).
  rewrite (non_decimal_literal_digits s H), (read_sign_digits s H).
  rewrite (digits_not_infinity s H).
  unfold unsigned_decimal. rewrite (span_digits s H).
  rewrite (digits_nonempty_eqb s Hne).
  cbn [andb exponent_part String.length Z.of_nat Z.sub Z.opp Z.add].
  rewrite append_empty_r.
  unfold of_Z. f_equal.
  change (pow10 0) with (qc 1 1).
  apply Qc_one_mul_mul_one.
Qed.

Lemma parseInt_digits s :
  digits_only s = true -> s <> "" ->
  parseInt s = of_Z (Z.of_N (digits_value 10 0 s)).
Proof.
  intros H Hne. unfold parseInt.
  rewrite (trim_start_digits s H), (read_sign_digits s H).
  rewrite (radix_prefix_digits s H), (span_radix10_digits s H).
  rewrite (digits_nonempty_eqb s Hne).
  f_equal. destruct (digits_value 10 0 s); reflexivity.
Qed.

(** *** Canonical score strings *)

Lemma string_of_uint_digits d :
  digits_only (NilEmpty.string_of_uint d) = true.
Proof. induction d; simpl; auto. Qed.

Lemma string_of_N_unfold n :
  string_of_N n = NilEmpty.string_of_uint (N.to_uint n)
  /\ string_of_N n <> "".
Proof.
  unfold string_of_N, NilZero.string_of_uint.
  destruct n as [|p]; [split; [reflexivity | discriminate]|].
  cbn [N.to_uint].
  pose proof (DecimalPos.Unsigned.to_uint_nonnil p) as Hnil.
  destruct (Pos.to_uint p); try congruence; split;
    try reflexivity; discriminate.
Qed.

Lemma string_of_N_digits n : digits_only (string_of_N n) = true.
Proof.
  destruct (string_of_N_unfold n) as [-> _]. apply string_of_uint_digits.
Qed.

Ltac eval_digit :=
  match goal with
  | |- context [digit_in_radix 10%N ?c] =>
      let v := eval vm_compute in (digit_in_radix 10%N c) in
      change (digit_in_radix 10%N c) with v; cbv iota beta
  end.

Lemma digits_value_acc d acc :
  digits_value 10 (Npos acc) (NilEmpty.string_of_uint d)
  = Npos (Pos.of_uint_acc d acc).
Proof.
  revert acc.
  induction d; intro acc;
    cbn [NilEmpty.string_of_uint digits_value Pos.of_uint_acc];
    [reflexivity | ..];
    eval_digit; rewrite <- IHd; f_equal; lia.
Qed.

Lemma digits_value_uint d :
  digits_value 10 0 (NilEmpty.string_of_uint d) = Pos.of_uint d.
Proof.
  induction d;
    cbn [NilEmpty.string_of_uint digits_value Pos.of_uint];
    [reflexivity | ..];
    eval_digit; cbn [N.mul N.add]; auto using digits_value_acc.
Qed.

Lemma string_of_N_value n : digits_value 10 0 (string_of_N n) = n.
Proof.
  destruct (string_of_N_unfold n) as [-> _].
  rewrite digits_value_uint. apply (DecimalN.Unsigned.of_to n).
Qed.

(** Reading back a printed natural number. *)
Lemma Number_string_of_N n : Number (string_of_N n) = of_Z (Z.of_N n).
Proof.
  rewrite Number_digits.
  - rewrite string_of_N_value. reflexivity.
  - apply string_of_N_digits.
  - apply string_of_N_unfold.
Qed.

Lemma parseInt_string_of_N n : parseInt (string_of_N n) = of_Z (Z.of_N n).
Proof.
  rewrite parseInt_digits.
  - rewrite string_of_N_value. reflexivity.
  - apply string_of_N_digits.
  - apply string_of_N_unfold.
Qed.

Lemma split_score_string home away :
  split "-" (score_string home away) = [string_of_N home; string_of_N away].
Proof.
  unfold score_string.
  rewrite split_digits_app by apply string_of_N_digits.
  rewrite split_digits by apply string_of_N_digits.
  reflexivity.
Qed.

Lemma current_score_parts home away :
  map Number (split "-" (score_string home away))
  = [of_Z (Z.of_N home); of_Z (Z.of_N away)].
Proof.
  rewrite split_score_string. cbn [map].
  rewrite !Number_string_of_N. reflexivity.
Qed.

Lemma remove_whitespace_score_string home away :
  remove_whitespace (score_string home away) = score_string home away.
Proof.
  unfold score_string. rewrite !remove_whitespace_app.
  change (remove_whitespace "-") with "-".
  rewrite (remove_whitespace_digits _ (string_of_N_digits home)).
  rewrite (remove_whitespace_digits _ (string_of_N_digits away)).
  reflexivity.
Qed.

Lemma score_string_guard home away :
  truthy (score_string home away) && negb (score_string home away =? "N/A")
  = true.
Proof.
  unfold score_string.
  pose proof (string_of_N_digits home) as Hd.
  destruct (string_of_N_unfold home) as [_ Hne].
  destruct (string_of_N home) as [|c s]; [congruence|].
  apply digits_only_cons in Hd. destruct Hd as [Hc _].
  digit_cases c Hc; reflexivity.
Qed.

(** *** Exact arithmetic on integers and quarters *)

Ltac qc_unfold :=
  unfold qc, Qcminus, Qcdiv, Qcinv, Qcplus, Qcopp, Qcmult;
  cbn [this Q2Qc]; rewrite ?Qred_correct.

Ltac q_arith :=
  unfold Qeq, Qle, Qlt;
  cbn [Qnum Qden Qplus Qmult Qopp Qinv Qminus Qdiv inject_Z];
  lia.

Ltac qc_eq := qc_unfold; apply Q2Qc_eq_iff; qc_unfold; q_arith.

Lemma Qc_eqb_true_iff x y : Qc_eqb x y = true <-> x = y.
Proof.
  unfold Qc_eqb, Qc_eq_bool. destruct (Qc_eq_dec x y); split;
    congruence.
Qed.

Lemma Qc_eqb_qc a b (d : positive) :
  Qc_eqb (qc a d) (qc b d) = (a =? b)%Z.
Proof.
  apply eq_true_iff_eq. rewrite Qc_eqb_true_iff, Z.eqb_eq.
  unfold qc. rewrite Q2Qc_eq_iff. unfold Qeq. cbn [Qnum Qden].
  split; intro H; [nia | subst; reflexivity].
Qed.

Lemma Qc_leb_qc a b (d : positive) :
  Qc_leb (qc a d) (qc b d) = (a <=? b)%Z.
Proof.
  apply eq_true_iff_eq. unfold Qc_leb.
  rewrite Qle_bool_iff, Z.leb_le. qc_unfold.
  unfold Qle. cbn [Qnum Qden]. nia.
Qed.

Lemma add_of_Z a b : add (of_Z a) (of_Z b) = of_Z (a + b).
Proof. unfold of_Z. cbn [add]. f_equal. qc_eq. Qed.

Lemma sub_of_Z a b : sub (of_Z a) (of_Z b) = of_Z (a - b).
Proof. unfold sub, of_Z. cbn [neg add]. f_equal. qc_eq. Qed.

Lemma sub_zero x : sub x (of_Z 0) = x.
Proof.
  destruct x; try reflexivity.
  unfold sub, of_Z. cbn [neg add]. f_equal.
  change (qc 0 1) with 0%Qc. ring.
Qed.

Lemma add_Z_quarter z k :
  add (of_Z z) (Fin (qc k 4)) = Fin (qc (4 * z + k) 4).
Proof. unfold of_Z. cbn [add]. f_equal. qc_eq. Qed.

Lemma sub_Z_quarter z k :
  sub (of_Z z) (Fin (qc k 4)) = Fin (qc (4 * z - k) 4).
Proof. unfold sub, of_Z. cbn [neg add]. f_equal. qc_eq. Qed.

Lemma sub_quarter_Z k z :
  sub (Fin (qc k 4)) (of_Z z) = Fin (qc (k - 4 * z) 4).
Proof. unfold sub, of_Z. cbn [neg add]. f_equal. qc_eq. Qed.

Lemma Qfloor_half z : Qfloor (inject_Z z + (1 # 2)) = z.
Proof.
  unfold Qfloor, Qplus, inject_Z. cbn [Qnum Qden].
  symmetry. apply (Z.div_unique _ _ z 1); lia.
Qed.

(** [Math.round(x * 100) / 100] leaves a number of hundredths alone. *)
Lemma round2_hundredths z : round2 (Fin (qc z 100)) = Fin (qc z 100).
Proof.
  unfold round2, n100. cbn [mul Math_round]. unfold of_Z.
  assert (Hfloor :
    Qfloor (this (qc z 100 * qc 100 1)%Qc + (1 # 2))%Q = z).
  { rewrite <- (Qfloor_half z) at 2. apply Qfloor_comp.
    qc_unfold. q_arith. }
  rewrite Hfloor. cbn [div].
  change (Qc_eqb (qc 100 1) 0) with false. cbv iota.
  f_equal. qc_eq.
Qed.

Lemma quarter_hundredths n : qc n 4 = qc (25 * n) 100.
Proof. qc_eq. Qed.

Lemma round2_quarter n : round2 (Fin (qc n 4)) = Fin (qc n 4).
Proof. rewrite quarter_hundredths. apply round2_hundredths. Qed.

(** The result chain on a number of quarters. *)
Lemma outcome_label_quarter n :
  outcome_label (Fin (qc n 4))
  = if (2 <=? n)%Z then "Win"
    else if (n =? 1)%Z then "Half Win"
    else if (n =? 0)%Z then "Push"
    else if (n =? -1)%Z then "Half Loss"
    else "Loss".
Proof.
  unfold outcome_label, n0_5, n0_25, n0. cbn [ge strict_eq neg].
  replace (qc 1 2) with (qc 2 4) by qc_eq.
  replace (qc 0 1) with (qc 0 4) by qc_eq.
  replace (- qc 1 4)%Qc with (qc (-1) 4) by qc_eq.
  rewrite Qc_leb_qc, !Qc_eqb_qc. reflexivity.
Qed.

(** *** Shape of a settlement result *)

Lemma adjusted_goals_snapshot snapshot home away :
  adjusted_goals (snapshot_string snapshot)
    (Num (of_Z (Z.of_N home))) (Num (of_Z (Z.of_N away)))
  = let (h, a) := since snapshot home away in (Num (of_Z h), Num (of_Z a)).
Proof.
  destruct snapshot as [[bh ba]|]; [|reflexivity].
  cbn [snapshot_string since]. unfold adjusted_goals.
  rewrite score_string_guard, remove_whitespace_score_string.
  rewrite split_score_string. cbn [List.length Nat.eqb nth].
  rewrite !parseInt_string_of_N.
  cbn [of_Z isNaN negb andb to_number]. rewrite !sub_of_Z. reflexivity.
Qed.

Ltac eval_selection :=
  repeat match goal with
  | |- context [String.eqb ?a ?b] =>
      let v := eval vm_compute in (String.eqb a b) in
      change (String.eqb a b) with v
  end;
  cbn [orb]; cbv iota.

(** Team handicap on a snapshot: label of the margin on the goals since
    the snapshot, then the selection, the line and those goals. *)
Lemma team_result sel line snapshot home away :
  sel = "Home Team" \/ sel = "Away Team" ->
  calculateEnhancedPredictedResult
    sel line (snapshot_string snapshot) (score_string home away)
  = let (h, a) := since snapshot home away in
    outcome_label (margin sel line (of_Z h) (of_Z a))
      ++ " - " ++ sel ++ " (" ++ Number_toString line ++ ") ("
      ++ Number_toString (of_Z h) ++ "-" ++ Number_toString (of_Z a)
      ++ ")".
Proof.
  intro Hsel. unfold calculateEnhancedPredictedResult.
  rewrite current_score_parts. cbn [element nth_error].
  rewrite adjusted_goals_snapshot.
  destruct (since snapshot home away) as [h a].
  unfold margin, parseFloat.
  destruct Hsel as [-> | ->]; eval_selection; reflexivity.
Qed.

(** Totals: label of the margin on the current total, whatever the
    bet-time score. *)
Lemma totals_result sel line betTimeScore home away :
  sel = "Over" \/ sel = "Under" ->
  calculateEnhancedPredictedResult
    sel line betTimeScore (score_string home away)
  = outcome_label
      (margin sel line (of_Z (Z.of_N home)) (of_Z (Z.of_N away)))
      ++ " - " ++ sel ++ " (" ++ Number_toString line ++ ") ("
      ++ Number_toString (of_Z (Z.of_N home + Z.of_N away)) ++ " goals)".
Proof.
  intro Hsel. unfold calculateEnhancedPredictedResult.
  rewrite current_score_parts. cbn [element nth_error].
  destruct (adjusted_goals _ _ _) as [ah aa].
  unfold margin, parseFloat. cbn [to_number]. rewrite add_of_Z.
  destruct Hsel as [-> | ->]; eval_selection; reflexivity.
Qed.

Lemma settlement_result sel line snapshot home away :
  In sel selections ->
  exists detail,
    calculateEnhancedPredictedResult
      sel line (snapshot_string snapshot) (score_string home away)
    = outcome_label (settlement_margin sel line snapshot home away)
        ++ " - " ++ detail.
Proof.
  intro Hsel. unfold selections in Hsel. cbn [In] in Hsel.
  destruct Hsel as [<- | [<- | [<- | [<- | []]]]].
  - rewrite team_result by auto. unfold settlement_margin.
    eval_selection. destruct (since _ _ _). eexists. reflexivity.
  - rewrite team_result by auto. unfold settlement_margin.
    eval_selection. destruct (since _ _ _). eexists. reflexivity.
  - rewrite totals_result by auto. unfold settlement_margin.
    eval_selection. eexists. reflexivity.
  - rewrite totals_result by auto. unfold settlement_margin.
    eval_selection. eexists. reflexivity.
Qed.

(** *** Classification by margin *)

Lemma has_outcome_label c c' detail :
  has_outcome (label c ++ " - " ++ detail) c' <-> c = c'.
Proof.
  split.
  - intros [d H]. destruct c, c'; try reflexivity; discriminate H.
  - intros <-. exists detail. reflexivity.
Qed.

Lemma Qcle_qc a b (d : positive) : (qc a d <= qc b d)%Qc <-> (a <= b)%Z.
Proof.
  rewrite <- Z.leb_le, <- (Qc_leb_qc a b d). unfold Qc_leb, Qcle.
  symmetry. apply Qle_bool_iff.
Qed.

Lemma qc_inj a b (d : positive) : qc a d = qc b d <-> a = b.
Proof.
  rewrite <- Z.eqb_eq, <- (Qc_eqb_qc a b d).
  symmetry. apply Qc_eqb_true_iff.
Qed.

Lemma margin_quarter sel k h a :
  In sel selections ->
  exists n, margin sel (Fin (qc k 4)) (of_Z h) (of_Z a) = Fin (qc n 4).
Proof.
  intro Hsel. unfold selections in Hsel. cbn [In] in Hsel.
  destruct Hsel as [<- | [<- | [<- | [<- | []]]]];
    unfold margin; eval_selection;
    rewrite ?sub_of_Z, ?add_of_Z,
            ?add_Z_quarter, ?sub_Z_quarter, ?sub_quarter_Z, round2_quarter;
    eexists; reflexivity.
Qed.

Lemma settlement_margin_quarter sel k snapshot home away :
  In sel selections ->
  exists n,
    settlement_margin sel (Fin (qc k 4)) snapshot home away = Fin (qc n 4).
Proof.
  intro Hsel. unfold settlement_margin.
  destruct (_ || _); [destruct (since _ _ _)|];
    apply margin_quarter, Hsel.
Qed.

Lemma classified_by_margin_quarter n detail :
  classified_by_margin (qc n 4)
    (outcome_label (Fin (qc n 4)) ++ " - " ++ detail).
Proof.
  rewrite outcome_label_quarter. unfold classified_by_margin.
  replace (qc 1 2) with (qc 2 4) by qc_eq.
  replace (qc 0 1) with (qc 0 4) by qc_eq.
  replace (qc (-1) 2) with (qc (-2) 4) by qc_eq.
  rewrite !Qcle_qc, !qc_inj.
  destruct (Z.leb_spec 2 n);
    [| destruct (Z.eqb_spec n 1);
       [| destruct (Z.eqb_spec n 0);
          [| destruct (Z.eqb_spec n (-1))]]];
    [ change "Win" with (label Win)
    | change "Half Win" with (label HalfWin)
    | change "Push" with (label Push)
    | change "Half Loss" with (label HalfLoss)
    | change "Loss" with (label Loss) ];
    rewrite !has_outcome_label;
    repeat split; intro; try discriminate; lia.
Qed.

(** C1.  For each of the four selections, every line [k/4] and all
    non-negative integer scores (current score, and bet-time snapshot
    when there is one), the margin of the settlement rules is a finite
    number [m] and the result is Win exactly when [m >= 0.5], Half Win
    exactly when [m = 0.25], Push exactly when [m = 0], Half Loss exactly
    when [m = -0.25] and Loss exactly when [m <= -0.5]. *)
Theorem classification_by_margin :
  forall (sel : string) (k : Z) (snapshot : option (N * N)) (home away : N),
    In sel selections ->
    exists m : Qc,
      settlement_margin sel (Fin (qc k 4)) snapshot home away = Fin m
      /\ classified_by_margin m
           (calculateEnhancedPredictedResult
              sel (Fin (qc k 4)) (snapshot_string snapshot)
              (score_string home away)).
Proof.
  intros sel k snapshot home away Hsel.
  destruct (settlement_margin_quarter sel k snapshot home away Hsel)
    as [n Hn].
  destruct (settlement_result sel (Fin (qc k 4)) snapshot home away Hsel)
    as [detail Hr].
  exists (qc n 4). split; [exact Hn|].
  rewrite Hr, Hn. apply classified_by_margin_quarter.
Qed.

Lemma classification_by_margin_witness :
  In "Over" selections
  /\ exists m : Qc,
       settlement_margin "Over" (Fin (qc 11 4)) None 2 1 = Fin m
       /\ classified_by_margin m
            (calculateEnhancedPredictedResult
               "Over" (Fin (qc 11 4)) (snapshot_string None)
               (score_string 2 1)).
Proof.
  assert (H : In "Over" selections) by (cbn; auto).
  split; [exact H|].
  exact (classification_by_margin "Over" 11 None 2 1 H).
Defined.

(** *** Bet-time snapshot *)

(** C3.  For Home Team and Away Team, with a bet-time snapshot [bh-ba]
    the result is the label of the margin computed on the goals scored
    since the snapshot, [home - bh] and [away - ba], and its detail shows
    those goals; without a bet-time score the result is the one obtained
    with the snapshot [0-0]. *)
Theorem handicap_since_snapshot :
  forall (sel : string) (line : number) (home away bh ba : N),
    sel = "Home Team" \/ sel = "Away Team" ->
    let h := (Z.of_N home - Z.of_N bh)%Z in
    let a := (Z.of_N away - Z.of_N ba)%Z in
    calculateEnhancedPredictedResult
      sel line (Some (score_string bh ba)) (score_string home away)
    = outcome_label (margin sel line (of_Z h) (of_Z a))
        ++ " - " ++ sel ++ " (" ++ Number_toString line ++ ") ("
        ++ Number_toString (of_Z h) ++ "-" ++ Number_toString (of_Z a)
        ++ ")"
    /\ calculateEnhancedPredictedResult
         sel line None (score_string home away)
       = calculateEnhancedPredictedResult
           sel line (Some (score_string 0 0)) (score_string home away).
Proof.
  intros sel line home away bh ba Hsel h a. split.
  - apply (team_result sel line (Some (bh, ba)) home away Hsel).
  - pose proof (team_result sel line None home away Hsel) as Hnone.
    pose proof (team_result sel line (Some (0%N, 0%N)) home away Hsel)
      as Hzero.
    cbn [snapshot_string since] in Hnone, Hzero.
    change (Z.of_N 0) with 0%Z in Hzero. rewrite !Z.sub_0_r in Hzero.
    rewrite Hnone, Hzero. reflexivity.
Qed.

Lemma handicap_since_snapshot_witness :
  ("Home Team" = "Home Team" \/ "Home Team" = "Away Team")
  /\ calculateEnhancedPredictedResult
       "Home Team" (Fin (qc (-1) 2)) (Some (score_string 1 1))
       (score_string 2 1)
     = outcome_label (margin "Home Team" (Fin (qc (-1) 2))
                        (of_Z (2 - 1)) (of_Z (1 - 1)))
         ++ " - " ++ "Home Team" ++ " ("
         ++ Number_toString (Fin (qc (-1) 2)) ++ ") ("
         ++ Number_toString (of_Z (2 - 1)) ++ "-"
         ++ Number_toString (of_Z (1 - 1)) ++ ")".
Proof.
  split; [left; reflexivity|].
  exact (proj1 (handicap_since_snapshot
                  "Home Team" (Fin (qc (-1) 2)) 2 1 1 1
                  (or_introl eq_refl))).
Defined.

(** C8.  For Over and Under the result does not depend on the bet-time
    score: any two bet-time scores, null included, give the same result
    on the same line and current score. *)
Theorem totals_ignore_bet_time_score :
  forall (sel : string) (line : number)
         (betTimeScore betTimeScore' : option string)
         (currentScore : string),
    sel = "Over" \/ sel = "Under" ->
    calculateEnhancedPredictedResult sel line betTimeScore currentScore
    = calculateEnhancedPredictedResult sel line betTimeScore' currentScore.
Proof.
  intros sel line bt bt' cur Hsel.
  unfold calculateEnhancedPredictedResult.
  destruct (adjusted_goals bt _ _) as [ah aa].
  destruct (adjusted_goals bt' _ _) as [ah' aa'].
  destruct Hsel as [-> | ->]; eval_selection; reflexivity.
Qed.

Lemma totals_ignore_bet_time_score_witness :
  ("Over" = "Over" \/ "Over" = "Under")
  /\ calculateEnhancedPredictedResult "Over" (Fin (qc 5 2)) None "2-1"
     = calculateEnhancedPredictedResult
         "Over" (Fin (qc 5 2)) (Some "1-1") "2-1".
Proof.
  split; [left; reflexivity|].
  exact (totals_ignore_bet_time_score
           "Over" (Fin (qc 5 2)) None (Some "1-1") "2-1"
           (or_introl eq_refl)).
Defined.

(** *** Payout *)

(** C2.  On a result of class Win, Half Win, Push, Half Loss or Loss,
    with or without its detail suffix, [calculatePayout] returns
    [stake * odds], [stake + stake * (odds - 1) * 0.5], [stake],
    [stake * 0.5] and [0]; at stake 100 and odds 1.86 these are 186, 143,
    100, 50 and 0, in exact arithmetic and in binary64 alike. *)
Theorem payout_table :
  forall (detail : string) (stake odds : number),
    (calculatePayout ("Win" ++ detail) stake odds = mul stake odds
     /\ calculatePayout ("Half Win" ++ detail) stake odds
        = add stake (mul (mul stake (sub odds n1)) n0_5)
     /\ calculatePayout ("Push" ++ detail) stake odds = stake
     /\ calculatePayout ("Half Loss" ++ detail) stake odds
        = mul stake n0_5
     /\ calculatePayout ("Loss" ++ detail) stake odds = n0)
    /\ (let s := of_Z 100 in
        let o := Fin (qc 186 100) in
        calculatePayout ("Win" ++ detail) s o = of_Z 186
        /\ calculatePayout ("Half Win" ++ detail) s o = of_Z 143
        /\ calculatePayout ("Push" ++ detail) s o = of_Z 100
        /\ calculatePayout ("Half Loss" ++ detail) s o = of_Z 50
        /\ calculatePayout ("Loss" ++ detail) s o = of_Z 0)
    /\ (let s := Binary64.of_Z 100 in
        let o := Binary64.odds_1_86 in
        Binary64.calculatePayout ("Win" ++ detail) s o
        = Binary64.of_Z 186
        /\ Binary64.calculatePayout ("Half Win" ++ detail) s o
           = Binary64.of_Z 143
        /\ Binary64.calculatePayout ("Push" ++ detail) s o
           = Binary64.of_Z 100
        /\ Binary64.calculatePayout ("Half Loss" ++ detail) s o
           = Binary64.of_Z 50
        /\ Binary64.calculatePayout ("Loss" ++ detail) s o
           = Binary64.of_Z 0).
Proof.
  intros detail stake odds.
  split; [repeat split; reflexivity|].
  split.
  - cbv zeta.
    change (calculatePayout ("Win" ++ detail) (of_Z 100) (Fin (qc 186 100)))
      with (mul (of_Z 100) (Fin (qc 186 100))).
    change (calculatePayout ("Half Win" ++ detail) (of_Z 100)
              (Fin (qc 186 100)))
      with (add (of_Z 100)
              (mul (mul (of_Z 100) (sub (Fin (qc 186 100)) n1)) n0_5)).
    change (calculatePayout ("Half Loss" ++ detail) (of_Z 100)
              (Fin (qc 186 100)))
      with (mul (of_Z 100) n0_5).
    unfold of_Z, n1, n0_5, sub. cbn [mul add neg].
    repeat split; try reflexivity; f_equal; qc_eq.
  - cbv zeta. repeat split; vm_compute; reflexivity.
Qed.

(** C10.  A result that starts with none of ["Win"], ["Half Win"],
    ["Push"], ["Half Loss"] is paid 0 at any stake and odds. *)
Theorem unrecognised_result_pays_nothing :
  forall (result : string) (stake odds : number),
    startsWith result "Win" = false ->
    startsWith result "Half Win" = false ->
    startsWith result "Push" = false ->
    startsWith result "Half Loss" = false ->
    calculatePayout result stake odds = n0.
Proof.
  intros result stake odds HW HHW HP HHL.
  unfold calculatePayout. rewrite HW, HHW, HP, HHL. reflexivity.
Qed.

Lemma unrecognised_result_pays_nothing_witness :
  calculatePayout "Pending" (of_Z 100) (Fin (qc 186 100)) = n0
  /\ calculatePayout "Invalid" (of_Z 100) (Fin (qc 186 100)) = n0
  /\ calculatePayout "Loss - Over (2.5) (2 goals)"
       (of_Z 100) (Fin (qc 186 100)) = n0.
Proof.
  split; [| split];
    apply unrecognised_result_pays_nothing; reflexivity.
Defined.

(** C4, as the code has it.  For a result of any of the five classes, a
    positive finite stake and finite odds of at least 1, [computePayout]
    returns a finite payout between 0 and [stake * odds]; and whatever
    the stake and the odds, negative or not finite included, it returns
    a number. *)
Theorem payout_bounds :
  forall (c : OutcomeClass) (detail : string) (stake odds : Qc),
    (0 < stake)%Qc -> (1 <= odds)%Qc ->
    (exists p : Qc,
        computePayout (label c ++ detail) (Fin stake) (Fin odds)
        = Returns (Fin p)
        /\ (0 <= p)%Qc /\ (p <= stake * odds)%Qc)
    /\ (forall s o : number,
          exists v : number,
            computePayout (label c ++ detail) s o = Returns v).
Proof.
  intros c detail stake odds Hs Ho.
  split; [| intros s o; eexists; reflexivity].
  unfold Qclt in Hs. unfold Qcle in Ho. cbn [this Q2Qc] in Hs, Ho.
  rewrite ?Qred_correct in Hs, Ho. unfold computePayout.
  destruct c; eexists; (split; [reflexivity|]);
    unfold Qcle, n1, n0_5, n0; qc_unfold;
    destruct stake as [s Hcs], odds as [o Hco]; cbn [this] in *;
    split; nra.
Qed.

Lemma payout_bounds_witness :
  (0 < qc 100 1)%Qc /\ (1 <= qc 186 100)%Qc
  /\ exists p : Qc,
       computePayout (label HalfWin ++ " - Over (2.75) (3 goals)")
         (Fin (qc 100 1)) (Fin (qc 186 100)) = Returns (Fin p)
       /\ (0 <= p)%Qc /\ (p <= qc 100 1 * qc 186 100)%Qc.
Proof.
  assert (Hs : (0 < qc 100 1)%Qc) by (vm_compute; reflexivity).
  assert (Ho : (1 <= qc 186 100)%Qc) by (vm_compute; discriminate).
  split; [exact Hs|]. split; [exact Ho|].
  exact (proj1 (payout_bounds HalfWin " - Over (2.75) (3 goals)"
                  (qc 100 1) (qc 186 100) Hs Ho)).
Defined.

Lemma binary64_odds_literal : Binary64.odds_1_86 = Binary64.literal_1_86.
Proof. vm_compute. reflexivity. Qed.

(** C4, as stated, fails.  At stake 100 and odds 0.5, both positive and
    finite, a Push pays 100, more than [stake * odds = 50]; and a
    negative stake is not rejected: a Win at stake -100 and odds 2
    returns -200. *)
Lemma payout_bounds_counterexample :
  computePayout "Push" (of_Z 100) (Fin (qc 1 2)) = Returns (of_Z 100)
  /\ mul (of_Z 100) (Fin (qc 1 2)) = of_Z 50
  /\ ge (of_Z 50) (of_Z 100) = false
  /\ computePayout "Win" (of_Z (-100)) (of_Z 2) = Returns (of_Z (-200))
  /\ computePayout "Win" (of_Z (-100)) (of_Z 2) <> Fails InvalidArgument
  /\ computePayout "Win" PosInf (of_Z 2) = Returns PosInf
  /\ Binary64.calculatePayout "Push" (Binary64.of_Z 100) Binary64.half
     = Binary64.of_Z 100
  /\ PrimFloat.mul (Binary64.of_Z 100) Binary64.half = Binary64.of_Z 50.
Proof.
  unfold computePayout.
  change (calculatePayout "Push" (of_Z 100) (Fin (qc 1 2)))
    with (of_Z 100).
  change (calculatePayout "Win" (of_Z (-100)) (of_Z 2))
    with (mul (of_Z (-100)) (of_Z 2)).
  assert (H50 : mul (of_Z 100) (Fin (qc 1 2)) = of_Z 50)
    by (unfold of_Z; cbn [mul]; f_equal; qc_eq).
  assert (H200 : mul (of_Z (-100)) (of_Z 2) = of_Z (-200))
    by (unfold of_Z; cbn [mul]; f_equal; qc_eq).
  rewrite H200.
  repeat split; try assumption; try reflexivity; discriminate.
Qed.

(** *** Inputs the specification calls errors *)

(** C5, as stated, fails.  With line 0.125 and score 0-0 the Home Team
    margin is [Math.round(12.5) / 100 = 0.13], outside the five buckets;
    the call returns a Loss and no error. *)
Lemma unclassifiable_margin_counterexample :
  settlement_margin "Home Team" (Fin (qc 1 8)) None 0 0 = Fin (qc 13 100)
  /\ in_bucket (Fin (qc 13 100)) = false
  /\ classifyOutcome "Home Team" (Fin (qc 1 8)) None "0-0"
     = Returns "Loss - Home Team (0.125) (0-0)"
  /\ classifyOutcome "Home Team" (Fin (qc 1 8)) None "0-0"
     <> Fails UnclassifiableMargin.
Proof.
  split; [| split; [| split]].
  - unfold settlement_margin, margin, round2, sub, n100, of_Z.
    eval_selection. cbn [since Z.of_N neg add mul Math_round].
    unfold of_Z.
    replace (Qfloor _) with 13%Z by (vm_compute; reflexivity).
    cbn [div].
    change (Qc_eqb (qc 100 1) 0) with false. cbv iota.
    apply f_equal. qc_eq.
  - vm_compute. reflexivity.
  - unfold classifyOutcome. apply f_equal. vm_compute. reflexivity.
  - discriminate.
Qed.

(** [parseInt] gives an integer or [NaN], so a bet-time score leaves
    integer goals integral. *)
Lemma parseInt_integral s :
  parseInt s = NaN \/ exists z, parseInt s = of_Z z.
Proof.
  unfold parseInt.
  destruct (read_sign (trim_start s)) as [sign u].
  destruct (match u with
            | String "0" (String x r) =>
                if (Ascii.eqb x "x" || Ascii.eqb x "X")%bool then (16%N, r)
                else (10%N, u)
            | _ => (10%N, u)
            end) as [radix body].
  destruct (span (is_radix_digit radix) body) as [ds rest].
  destruct (ds =? EmptyString); [left; reflexivity|].
  right. eexists. reflexivity.
Qed.

Lemma adjusted_goals_integral bts h a :
  exists h' a',
    adjusted_goals bts (Num (of_Z h)) (Num (of_Z a))
    = (Num (of_Z h'), Num (of_Z a')).
Proof.
  unfold adjusted_goals.
  destruct bts as [bts|]; [|exists h, a; reflexivity].
  destruct (truthy bts && negb (bts =? "N/A")); [|exists h, a; reflexivity].
  cbv zeta.
  destruct (List.length (split "-" (remove_whitespace bts)) =? 2)%nat;
    [|exists h, a; reflexivity].
  destruct (parseInt_integral (nth 0 (split "-" (remove_whitespace bts)) ""))
    as [-> | [bh ->]]; [exists h, a; reflexivity|].
  destruct (parseInt_integral (nth 1 (split "-" (remove_whitespace bts)) ""))
    as [-> | [ba ->]]; [exists h, a; reflexivity|].
  cbn [of_Z isNaN negb andb to_number]. rewrite !sub_of_Z.
  eexists. eexists. reflexivity.
Qed.

(** A margin that is a whole number of quarters is in a bucket. *)
Lemma in_bucket_quarter n : in_bucket (Fin (qc n 4)) = true.
Proof.
  unfold in_bucket, n0_5, n0_25, n0. cbn [ge strict_eq neg].
  replace (qc 1 2) with (qc 2 4) by qc_eq.
  replace (qc 0 1) with (qc 0 4) by qc_eq.
  replace (- qc 1 4)%Qc with (qc (-1) 4) by qc_eq.
  replace (- qc 2 4)%Qc with (qc (-2) 4) by qc_eq.
  rewrite !Qc_leb_qc, !Qc_eqb_qc.
  destruct (2 <=? n)%Z eqn:H1; [reflexivity|].
  destruct (n =? 1)%Z eqn:H2; [reflexivity|].
  destruct (n =? 0)%Z eqn:H3; [reflexivity|].
  destruct (n =? -1)%Z eqn:H4; [reflexivity|].
  cbn [orb]. apply Z.leb_le. lia.
Qed.

Lemma outcome_label_outside m :
  in_bucket m = false -> outcome_label m = "Loss".
Proof.
  intro Hout. unfold in_bucket in Hout. unfold outcome_label.
  repeat (apply orb_false_iff in Hout; destruct Hout as [Hout ?]).
  repeat match goal with H : _ = false |- _ => rewrite H; clear H end.
  reflexivity.
Qed.

(** The label of a result is the label of the computed margin. *)
Lemma computed_margin_label sel line bts cs :
  In sel selections ->
  exists detail,
    calculateEnhancedPredictedResult sel line bts cs
    = outcome_label (computed_margin sel line bts cs) ++ " - " ++ detail.
Proof.
  intro Hsel. unfold selections in Hsel. cbn [In] in Hsel.
  unfold calculateEnhancedPredictedResult, computed_margin.
  destruct (adjusted_goals bts _ _) as [ah aa].
  destruct Hsel as [<- | [<- | [<- | [<- | []]]]];
    unfold margin; eval_selection; eexists; reflexivity.
Qed.

Lemma computed_margin_quarter sel k bts home away :
  In sel selections ->
  exists n,
    computed_margin sel (Fin (qc k 4)) bts (score_string home away)
    = Fin (qc n 4).
Proof.
  intro Hsel. unfold computed_margin.
  rewrite current_score_parts. cbn [element nth_error].
  destruct (adjusted_goals_integral bts (Z.of_N home) (Z.of_N away))
    as (h' & a' & ->).
  unfold parseFloat. cbn [to_number].
  destruct (_ || _); apply margin_quarter, Hsel.
Qed.

(** C5, as the code has it.  For each of the four selections and every
    line, bet-time score and current-score text, a computed margin
    outside the five buckets raises no error: the final [else] of the
    chain settles it as a Loss and the result string is returned.  Such
    a margin can only come from a line that is not a multiple of 0.25
    or from scores that are not integers: on a quarter line and an
    integer score the margin is in a bucket, whatever the bet-time
    score. *)
Theorem margin_outside_buckets_is_loss :
  forall (sel : string) (line : number) (betTimeScore : option string)
         (currentScore : string),
    In sel selections ->
    (in_bucket (computed_margin sel line betTimeScore currentScore) = false ->
     exists result,
       classifyOutcome sel line betTimeScore currentScore = Returns result
       /\ has_outcome result Loss)
    /\ (forall (k : Z) (home away : N),
          line = Fin (qc k 4) ->
          currentScore = score_string home away ->
          in_bucket (computed_margin sel line betTimeScore currentScore)
          = true).
Proof.
  intros sel line bts cs Hsel. split.
  - intro Hout. eexists. split; [reflexivity|].
    destruct (computed_margin_label sel line bts cs Hsel) as [detail ->].
    exists detail. rewrite (outcome_label_outside _ Hout). reflexivity.
  - intros k home away -> ->.
    destruct (computed_margin_quarter sel k bts home away Hsel) as [n ->].
    apply in_bucket_quarter.
Qed.

Lemma margin_outside_buckets_is_loss_witness :
  In "Home Team" selections
  /\ computed_margin "Home Team" (Fin (qc 1 4)) None "0.1-0"
     = Fin (qc 35 100)
  /\ in_bucket (computed_margin "Home Team" (Fin (qc 1 4)) None "0.1-0")
     = false
  /\ calculateEnhancedPredictedResult
       "Home Team" (Fin (qc 1 4)) None "0.1-0"
     = "Loss - Home Team (0.25) (0.1-0)"
  /\ exists result,
       classifyOutcome "Home Team" (Fin (qc 1 4)) None "0.1-0"
       = Returns result
       /\ has_outcome result Loss.
Proof.
  assert (Hsel : In "Home Team" selections) by (cbn; auto).
  assert (Hout :
    in_bucket (computed_margin "Home Team" (Fin (qc 1 4)) None "0.1-0")
    = false) by (vm_compute; reflexivity).
  split; [exact Hsel|].
  split; [vm_compute; reflexivity|].
  split; [exact Hout|].
  split; [vm_compute; reflexivity|].
  exact (proj1 (margin_outside_buckets_is_loss
                  "Home Team" (Fin (qc 1 4)) None "0.1-0" Hsel) Hout).
Defined.

(** C6, as stated, fails.  The bet-time score ["abc"] is not rejected:
    the call returns the result it returns for the snapshot ["0-0"].  A
    current score that does not parse is not rejected either. *)
Lemma invalid_score_counterexample :
  classifyOutcome "Home Team" (Fin (qc (-1) 2)) (Some "abc") "2-1"
  = Returns "Win - Home Team (-0.5) (2-1)"
  /\ classifyOutcome "Home Team" (Fin (qc (-1) 2)) (Some "abc") "2-1"
     = classifyOutcome "Home Team" (Fin (qc (-1) 2)) (Some "0-0") "2-1"
  /\ classifyOutcome "Home Team" (Fin (qc (-1) 2)) (Some "abc") "2-1"
     <> Fails InvalidScore
  /\ classifyOutcome "Over" (Fin (qc 5 2)) None "x-1"
     = Returns "Loss - Over (2.5) (NaN goals)".
Proof.
  unfold classifyOutcome.
  repeat split; try discriminate; apply f_equal; vm_compute; reflexivity.
Qed.

Lemma adjusted_goals_unreadable bts x y :
  bet_time_score_unreadable bts ->
  adjusted_goals (Some bts) x y = (x, y).
Proof.
  unfold bet_time_score_unreadable, adjusted_goals. cbv zeta.
  intros [-> | [-> | [Hlen | [Hnan | Hnan]]]]; try reflexivity.
  - destruct (_ && _); [|reflexivity].
    apply Nat.eqb_neq in Hlen. rewrite Hlen. reflexivity.
  - destruct (_ && _); [|reflexivity].
    destruct (_ =? _)%nat; [|reflexivity].
    rewrite Hnan. reflexivity.
  - destruct (_ && _); [|reflexivity].
    destruct (_ =? _)%nat; [|reflexivity].
    rewrite Hnan. cbn [isNaN negb]. rewrite andb_false_r. reflexivity.
Qed.

Lemma outcome_label_class x : exists c, outcome_label x = label c.
Proof.
  unfold outcome_label.
  destruct (ge x n0_5); [exists Win; reflexivity|].
  destruct (strict_eq x n0_25); [exists HalfWin; reflexivity|].
  destruct (strict_eq x n0); [exists Push; reflexivity|].
  destruct (strict_eq x (neg n0_25)); [exists HalfLoss; reflexivity|].
  exists Loss; reflexivity.
Qed.

(** C6, as the code has it.  A bet-time score that is empty, ['N/A'],
    not made of exactly two pieces around one ['-'], or with a piece that
    does not start with an integer, is ignored: the result is the one
    returned without a bet-time score, and on integer scores it carries
    one of the five classes. *)
Theorem unreadable_bet_time_score_ignored :
  forall (sel : string) (line : number) (betTimeScore : string),
    bet_time_score_unreadable betTimeScore ->
    (forall currentScore : string,
        classifyOutcome sel line (Some betTimeScore) currentScore
        = classifyOutcome sel line None currentScore)
    /\ (In sel selections ->
        forall home away : N,
        exists result c,
          classifyOutcome
            sel line (Some betTimeScore) (score_string home away)
          = Returns result
          /\ has_outcome result c).
Proof.
  intros sel line bts Hbad.
  assert (Heq : forall cur,
    calculateEnhancedPredictedResult sel line (Some bts) cur
    = calculateEnhancedPredictedResult sel line None cur).
  { intro cur. unfold calculateEnhancedPredictedResult.
    rewrite (adjusted_goals_unreadable bts _ _ Hbad). reflexivity. }
  unfold classifyOutcome.
  split; [intro cur; rewrite Heq; reflexivity|].
  intros Hsel home away. rewrite Heq.
  destruct (settlement_result sel line None home away Hsel)
    as [detail Hr].
  cbn [snapshot_string] in Hr. rewrite Hr.
  destruct (outcome_label_class (settlement_margin sel line None home away))
    as [c ->].
  eexists. exists c. split; [reflexivity|].
  exists detail. reflexivity.
Qed.

Lemma unreadable_bet_time_score_ignored_witness :
  bet_time_score_unreadable "abc"
  /\ classifyOutcome "Home Team" (Fin (qc (-1) 2)) (Some "abc") "2-1"
     = classifyOutcome "Home Team" (Fin (qc (-1) 2)) None "2-1".
Proof.
  assert (Hbad : bet_time_score_unreadable "abc").
  { unfold bet_time_score_unreadable. cbv zeta.
    right. right. left. vm_compute. discriminate. }
  split; [exact Hbad|].
  exact (proj1 (unreadable_bet_time_score_ignored
                  "Home Team" (Fin (qc (-1) 2)) "abc" Hbad) "2-1").
Defined.

(** C7, as stated, fails.  The selection ["Draw"] is not rejected: the
    call returns the string ["Pending"]. *)
Lemma invalid_selection_counterexample :
  ~ In "Draw" selections
  /\ classifyOutcome "Draw" (of_Z 0) None "0-0" = Returns "Pending"
  /\ classifyOutcome "Draw" (of_Z 0) None "0-0" <> Fails InvalidSelection.
Proof.
  unfold classifyOutcome. repeat split; try discriminate.
  cbn [selections In]. intros [H | [H | [H | [H | []]]]]; discriminate H.
Qed.

(** C7, as the code has it.  For a selection outside the four recognised
    values the result is the bare string ["Pending"], whatever the line
    and the scores: no label of the five classes and no detail suffix. *)
Theorem unknown_selection_is_pending :
  forall (sel : string) (line : number) (betTimeScore : option string)
         (currentScore : string),
    ~ In sel selections ->
    classifyOutcome sel line betTimeScore currentScore = Returns "Pending".
Proof.
  intros sel line bt cur Hsel.
  unfold selections in Hsel. cbn [In] in Hsel.
  unfold classifyOutcome, calculateEnhancedPredictedResult.
  destruct (adjusted_goals bt _ _) as [ah aa].
  destruct (String.eqb_spec sel "Home Team"); [intuition congruence|].
  destruct (String.eqb_spec sel "Away Team"); [intuition congruence|].
  destruct (String.eqb_spec sel "Over"); [intuition congruence|].
  destruct (String.eqb_spec sel "Under"); [intuition congruence|].
  reflexivity.
Qed.

Lemma unknown_selection_is_pending_witness :
  ~ In "Draw" selections
  /\ classifyOutcome "Draw" (of_Z 0) None "0-0" = Returns "Pending".
Proof.
  assert (Hsel : ~ In "Draw" selections).
  { cbn [selections In].
    intros [H | [H | [H | [H | []]]]]; discriminate H. }
  split; [exact Hsel|].
  exact (unknown_selection_is_pending "Draw" (of_Z 0) None "0-0" Hsel).
Defined.

(** *** Emotion mapping *)

(** C9.  On a result of any of the five classes, with or without its
    detail suffix, the in-progress mapping returns the hopeful token for
    Win and Half Win, the worried token for Loss and Half Loss and the
    neutral token for Push; the settled mapping returns joy for Win,
    relief for Half Win, neutral for Push, annoyed for Half Loss and
    anger for Loss, five pairwise distinct tokens. *)
Theorem emotion_tables :
  forall detail : string,
    (getInProgressEmotion ("Win" ++ detail)
       = mkEmotion "🤞" "hopeful" "Looking good!"
     /\ getInProgressEmotion ("Half Win" ++ detail)
       = mkEmotion "🤞" "hopeful" "Looking good!"
     /\ getInProgressEmotion ("Loss" ++ detail)
       = mkEmotion "😰" "worried" "Not looking good..."
     /\ getInProgressEmotion ("Half Loss" ++ detail)
       = mkEmotion "😰" "worried" "Not looking good..."
     /\ getInProgressEmotion ("Push" ++ detail)
       = mkEmotion "😐" "neutral" "Too close to call")
    /\ (state (getEmotionFromResult ("Win" ++ detail)) = "joy"
        /\ state (getEmotionFromResult ("Half Win" ++ detail)) = "relief"
        /\ state (getEmotionFromResult ("Push" ++ detail)) = "neutral"
        /\ state (getEmotionFromResult ("Half Loss" ++ detail)) = "annoyed"
        /\ state (getEmotionFromResult ("Loss" ++ detail)) = "anger")
    /\ (forall c c' : OutcomeClass,
          getEmotionFromResult (label c ++ detail)
          = getEmotionFromResult (label c' ++ detail) -> c = c').
Proof.
  intro detail.
  split; [ repeat split; reflexivity | ].
  split; [ repeat split; reflexivity | ].
  intros c c'.
  destruct c, c'; intro H; try reflexivity;
    apply (f_equal state) in H; vm_compute in H; discriminate H.
Qed.

(** ** Further properties of the structured path *)

Import Builtins Facts Legacy.

Lemma outcome_label_quarter_class n :
  outcome_label (Fin (qc n 4)) = label (class_of_quarters n).
Proof.
  rewrite outcome_label_quarter. unfold class_of_quarters.
  destruct (2 <=? n)%Z; [reflexivity|].
  destruct (n =? 1)%Z; [reflexivity|].
  destruct (n =? 0)%Z; [reflexivity|].
  destruct (n =? -1)%Z; reflexivity.
Qed.

Lemma mirror_class_of_quarters n :
  mirror (class_of_quarters n) = class_of_quarters (- n).
Proof.
  unfold class_of_quarters.
  destruct (Z.leb_spec 2 n); destruct (Z.eqb_spec n 1);
    destruct (Z.eqb_spec n 0); destruct (Z.eqb_spec n (-1));
    destruct (Z.leb_spec 2 (- n)); destruct (Z.eqb_spec (- n) 1);
    destruct (Z.eqb_spec (- n) 0); destruct (Z.eqb_spec (- n) (-1));
    try reflexivity; lia.
Qed.

Lemma mirror_involutive c : mirror (mirror c) = c.
Proof. destruct c; reflexivity. Qed.

Lemma margin_quarter_value sel k h a :
  In sel selections ->
  margin sel (Fin (qc k 4)) (of_Z h) (of_Z a)
  = Fin (qc (if sel =? "Home Team" then 4 * (h - a) + k
             else if sel =? "Away Team" then 4 * (a - h) + k
             else if sel =? "Over" then 4 * (h + a) - k
             else k - 4 * (h + a)) 4).
Proof.
  intro Hsel. unfold selections in Hsel. cbn [In] in Hsel.
  destruct Hsel as [<- | [<- | [<- | [<- | []]]]];
    unfold margin; eval_selection;
    rewrite ?sub_of_Z, ?add_of_Z,
            ?add_Z_quarter, ?sub_Z_quarter, ?sub_quarter_Z, round2_quarter;
    reflexivity.
Qed.

(** X1.  On a quarter line and integer scores, Over and Under are
    mirror images whatever the bet-time scores: Over wins exactly when
    Under loses, Over half-wins exactly when Under half-loses, and a
    push is a push for both. *)
Theorem over_under_mirror :
  forall (k : Z) (bt bt' : option string) (home away : N)
         (c : OutcomeClass),
    has_outcome
      (calculateEnhancedPredictedResult
         "Over" (Fin (qc k 4)) bt (score_string home away)) c
    <-> has_outcome
          (calculateEnhancedPredictedResult
             "Under" (Fin (qc k 4)) bt' (score_string home away))
          (mirror c).
Proof.
  intros k bt bt' home away c.
  rewrite !totals_result by auto.
  rewrite !margin_quarter_value by (cbn; auto).
  eval_selection. rewrite !outcome_label_quarter_class.
  replace (k - 4 * (Z.of_N home + Z.of_N away))%Z
    with (- (4 * (Z.of_N home + Z.of_N away) - k))%Z by lia.
  rewrite <- mirror_class_of_quarters, !has_outcome_label.
  split; [intros <-; reflexivity|].
  intro H. apply (f_equal mirror) in H.
  rewrite !mirror_involutive in H. exact H.
Qed.

(** X2.  On integer scores and the same bet-time snapshot, Home Team at
    line [k/4] and Away Team at line [-k/4] are mirror images. *)
Theorem home_away_mirror :
  forall (k : Z) (snapshot : option (N * N)) (home away : N)
         (c : OutcomeClass),
    has_outcome
      (calculateEnhancedPredictedResult
         "Home Team" (Fin (qc k 4)) (snapshot_string snapshot)
         (score_string home away)) c
    <-> has_outcome
          (calculateEnhancedPredictedResult
             "Away Team" (Fin (qc (- k) 4)) (snapshot_string snapshot)
             (score_string home away))
          (mirror c).
Proof.
  intros k snapshot home away c.
  rewrite !team_result by auto.
  destruct (since snapshot home away) as [h a].
  rewrite !margin_quarter_value by (cbn; auto).
  eval_selection. rewrite !outcome_label_quarter_class.
  replace (4 * (a - h) + - k)%Z with (- (4 * (h - a) + k))%Z by lia.
  rewrite <- mirror_class_of_quarters, !has_outcome_label.
  split; [intros <-; reflexivity|].
  intro H. apply (f_equal mirror) in H.
  rewrite !mirror_involutive in H. exact H.
Qed.

Lemma enhanced_shape sel line bt cur :
  In sel selections ->
  exists x detail,
    calculateEnhancedPredictedResult sel line bt cur
    = outcome_label x ++ " - " ++ detail.
Proof.
  intro Hsel. unfold selections in Hsel. cbn [In] in Hsel.
  unfold calculateEnhancedPredictedResult.
  destruct (adjusted_goals bt _ _) as [ah aa].
  destruct Hsel as [<- | [<- | [<- | [<- | []]]]]; eval_selection;
    eexists; eexists; reflexivity.
Qed.

(** X3.  For a recognised selection, whatever the line and the score
    texts, the result starts with the label of one of the five classes
    followed by [" - "], and the detail after it never changes how the
    result is read: the payout and both emotions are those of the bare
    label, so a valid selection never shows the thinking token. *)
Theorem recognised_selection_is_classified :
  forall (sel : string) (line : number) (bt : option string)
         (cur : string),
    In sel selections ->
    let r := calculateEnhancedPredictedResult sel line bt cur in
    exists c,
      has_outcome r c
      /\ (forall stake odds,
            calculatePayout r stake odds = payout_of c stake odds)
      /\ getEmotionFromResult r = getEmotionFromResult (label c)
      /\ getInProgressEmotion r = getInProgressEmotion (label c)
      /\ state (getEmotionFromResult r) <> "thinking".
Proof.
  intros sel line bt cur Hsel r. subst r.
  destruct (enhanced_shape sel line bt cur Hsel) as (x & detail & ->).
  destruct (outcome_label_class x) as [c ->].
  exists c. split; [exists detail; reflexivity|].
  destruct c; repeat split; try reflexivity; discriminate.
Qed.

Lemma recognised_selection_is_classified_witness :
  In "Under" selections
  /\ exists c,
       has_outcome
         (calculateEnhancedPredictedResult
            "Under" (Fin (qc 9 4)) (Some "n/a") "x-1") c.
Proof.
  assert (Hsel : In "Under" selections) by (cbn; auto).
  split; [exact Hsel|].
  destruct (recognised_selection_is_classified
              "Under" (Fin (qc 9 4)) (Some "n/a") "x-1" Hsel)
    as [c [Hc _]].
  exists c. exact Hc.
Defined.

(** X4.  On a recognised selection, a quarter line and integer scores
    the payout is read off the margin: with a margin of [n] quarters it
    is [stake * odds] when [n >= 2], [stake + stake * (odds - 1) * 0.5]
    when [n = 1], the stake when [n = 0], half the stake when [n = -1]
    and nothing below. *)
Theorem payout_by_margin :
  forall (sel : string) (k : Z) (snapshot : option (N * N))
         (home away : N) (stake odds : number),
    In sel selections ->
    exists n : Z,
      settlement_margin sel (Fin (qc k 4)) snapshot home away
      = Fin (qc n 4)
      /\ calculatePayout
           (calculateEnhancedPredictedResult
              sel (Fin (qc k 4)) (snapshot_string snapshot)
              (score_string home away))
           stake odds
         = payout_of (class_of_quarters n) stake odds.
Proof.
  intros sel k snapshot home away stake odds Hsel.
  destruct (settlement_margin_quarter sel k snapshot home away Hsel)
    as [n Hn].
  destruct (settlement_result sel (Fin (qc k 4)) snapshot home away Hsel)
    as [detail Hr].
  exists n. split; [exact Hn|].
  rewrite Hr, Hn, outcome_label_quarter_class.
  destruct (class_of_quarters n); reflexivity.
Qed.

Lemma payout_by_margin_witness :
  In "Over" selections
  /\ exists n : Z,
       settlement_margin "Over" (Fin (qc 11 4)) None 2 1 = Fin (qc n 4)
       /\ calculatePayout
            (calculateEnhancedPredictedResult
               "Over" (Fin (qc 11 4)) (snapshot_string None)
               (score_string 2 1))
            (of_Z 100) (Fin (qc 186 100))
          = payout_of (class_of_quarters n) (of_Z 100) (Fin (qc 186 100)).
Proof.
  assert (Hsel : In "Over" selections) by (cbn; auto).
  split; [exact Hsel|].
  exact (payout_by_margin "Over" 11 None 2 1
           (of_Z 100) (Fin (qc 186 100)) Hsel).
Defined.

Lemma adjusted_goals_reads_stripped bts x y :
  adjusted_goals (Some bts) x y
  = let parts := split "-" (remove_whitespace bts) in
    if (List.length parts =? 2)%nat then
      let bh := parseInt (nth 0 parts "") in
      let ba := parseInt (nth 1 parts "") in
      if negb (isNaN bh) && negb (isNaN ba)
      then (Num (sub (to_number x) bh), Num (sub (to_number y) ba))
      else (x, y)
    else (x, y).
Proof.
  unfold adjusted_goals.
  destruct (truthy bts && negb (bts =? "N/A")) eqn:Hg; [reflexivity|].
  apply andb_false_iff in Hg. destruct Hg as [Hg | Hg].
  - unfold truthy in Hg. apply negb_false_iff, String.eqb_eq in Hg.
    subst bts. reflexivity.
  - apply negb_false_iff, String.eqb_eq in Hg. subst bts. reflexivity.
Qed.

(** X5.  White space in a bet-time score is immaterial: two bet-time
    scores that are equal once their white space is removed give the
    same result, for every selection, line and current score. *)
Theorem bet_time_score_whitespace_immaterial :
  forall (sel : string) (line : number) (bts bts' cur : string),
    remove_whitespace bts = remove_whitespace bts' ->
    calculateEnhancedPredictedResult sel line (Some bts) cur
    = calculateEnhancedPredictedResult sel line (Some bts') cur.
Proof.
  intros sel line bts bts' cur Heq.
  unfold calculateEnhancedPredictedResult.
  rewrite !adjusted_goals_reads_stripped, Heq. reflexivity.
Qed.

Lemma bet_time_score_whitespace_immaterial_witness :
  remove_whitespace " 1 - 0 " = remove_whitespace "1-0"
  /\ calculateEnhancedPredictedResult
       "Home Team" (Fin (qc 1 4)) (Some " 1 - 0 ") "2-1"
     = calculateEnhancedPredictedResult
         "Home Team" (Fin (qc 1 4)) (Some "1-0") "2-1".
Proof.
  assert (H : remove_whitespace " 1 - 0 " = remove_whitespace "1-0")
    by reflexivity.
  split; [exact H|].
  exact (bet_time_score_whitespace_immaterial
           "Home Team" (Fin (qc 1 4)) " 1 - 0 " "1-0" "2-1" H).
Defined.


Lemma trim_start_whitespace_app w s :
  all_chars is_whitespace w = true -> trim_start (w ++ s) = trim_start s.
Proof.
  induction w as [|c w IH]; [reflexivity|].
  cbn [all_chars]. intro H. apply andb_true_iff in H. destruct H as [Hc Hw].
  cbn [append trim_start]. rewrite Hc. apply IH, Hw.
Qed.

Lemma trim_end_whitespace w :
  all_chars is_whitespace w = true -> trim_end w = "".
Proof.
  induction w as [|c w IH]; [reflexivity|].
  cbn [all_chars]. intro H. apply andb_true_iff in H. destruct H as [Hc Hw].
  cbn [trim_end]. rewrite (IH Hw), Hc. reflexivity.
Qed.

Lemma trim_end_digits_app ds w :
  digits_only ds = true -> ds <> "" ->
  all_chars is_whitespace w = true -> trim_end (ds ++ w) = ds.
Proof.
  intros Hd Hne Hw. induction ds as [|c ds IH]; [congruence|].
  apply digits_only_cons in Hd. destruct Hd as [Hc Hd].
  cbn [append trim_end]. rewrite (digit_not_whitespace c Hc).
  cbn [andb]. f_equal.
  destruct ds as [|c' ds'].
  - apply trim_end_whitespace, Hw.
  - apply IH; [exact Hd | discriminate].
Qed.

Lemma trim_padded_digits w1 ds w2 :
  digits_only ds = true -> ds <> "" ->
  all_chars is_whitespace w1 = true -> all_chars is_whitespace w2 = true ->
  trim (w1 ++ ds ++ w2) = ds.
Proof.
  intros Hd Hne H1 H2. unfold trim.
  rewrite (trim_start_whitespace_app w1 _ H1).
  assert (Hs : trim_start (ds ++ w2) = ds ++ w2).
  { destruct ds as [|c ds]; [congruence|].
    apply digits_only_cons in Hd. destruct Hd as [Hc _].
    cbn [append trim_start]. rewrite (digit_not_whitespace c Hc).
    reflexivity. }
  rewrite Hs. apply trim_end_digits_app; assumption.
Qed.

Lemma Number_trim s t : trim s = trim t -> Number s = Number t.
Proof. intro H. unfold Number. rewrite H. reflexivity. Qed.

Lemma whitespace_not_separator c :
  is_whitespace c = true -> Ascii.eqb c "-" = false.
Proof.
  intro H. destruct (Ascii.eqb_spec c "-") as [-> | _]; [|reflexivity].
  discriminate H.
Qed.

Lemma split_app_no_separator u v :
  count "-" u = O -> split "-" (u ++ "-" ++ v) = u :: split "-" v.
Proof.
  induction u as [|c u IH]; intro H; [reflexivity|].
  cbn [count] in H. destruct (Ascii.eqb c "-") eqn:Hc; [discriminate|].
  change (String c u ++ "-" ++ v) with (String c (u ++ "-" ++ v)).
  cbn [split]. rewrite Hc, (IH H). reflexivity.
Qed.

Lemma split_no_separator u : count "-" u = O -> split "-" u = [u].
Proof.
  induction u as [|c u IH]; intro H; [reflexivity|].
  cbn [count] in H. destruct (Ascii.eqb c "-") eqn:Hc; [discriminate|].
  cbn [split]. rewrite Hc, (IH H). reflexivity.
Qed.

Lemma count_app c s t : count c (s ++ t) = (count c s + count c t)%nat.
Proof.
  induction s as [|a s IH]; [reflexivity|].
  cbn [append count]. destruct (Ascii.eqb a c); rewrite IH; reflexivity.
Qed.

Lemma count_separator_whitespace w :
  all_chars is_whitespace w = true -> count "-" w = O.
Proof.
  induction w as [|c w IH]; [reflexivity|].
  cbn [all_chars count]. intro H. apply andb_true_iff in H.
  destruct H as [Hc Hw]. rewrite (whitespace_not_separator c Hc).
  apply IH, Hw.
Qed.

Lemma count_separator_digits ds :
  digits_only ds = true -> count "-" ds = O.
Proof.
  induction ds as [|c ds IH]; [reflexivity|].
  intro H. apply digits_only_cons in H. destruct H as [Hc Hd].
  cbn [count]. rewrite (digit_not_separator c Hc). apply IH, Hd.
Qed.

Lemma count_separator_padded w1 ds w2 :
  digits_only ds = true ->
  all_chars is_whitespace w1 = true -> all_chars is_whitespace w2 = true ->
  count "-" (w1 ++ ds ++ w2) = O.
Proof.
  intros Hd H1 H2. rewrite !count_app.
  rewrite (count_separator_whitespace w1 H1).
  rewrite (count_separator_whitespace w2 H2).
  rewrite (count_separator_digits ds Hd). reflexivity.
Qed.

(** X6.  White space around the two numbers of the current score is
    immaterial: ["H-A"] padded with any white space before and after
    each number gives the result of ["H-A"]. *)
Theorem current_score_padding_immaterial :
  forall (sel : string) (line : number) (bt : option string)
         (home away : N) (w1 w2 w3 w4 : string),
    all_chars is_whitespace w1 = true ->
    all_chars is_whitespace w2 = true ->
    all_chars is_whitespace w3 = true ->
    all_chars is_whitespace w4 = true ->
    calculateEnhancedPredictedResult sel line bt
      ((w1 ++ string_of_N home ++ w2) ++ "-"
       ++ (w3 ++ string_of_N away ++ w4))
    = calculateEnhancedPredictedResult sel line bt
        (score_string home away).
Proof.
  intros sel line bt home away w1 w2 w3 w4 H1 H2 H3 H4.
  assert (Hparts :
    map Number (split "-" ((w1 ++ string_of_N home ++ w2) ++ "-"
                           ++ (w3 ++ string_of_N away ++ w4)))
    = map Number (split "-" (score_string home away))).
  { rewrite split_app_no_separator
      by (apply count_separator_padded;
          auto using string_of_N_digits).
    rewrite split_no_separator
      by (apply count_separator_padded;
          auto using string_of_N_digits).
    rewrite split_score_string. cbn [map].
    rewrite (Number_trim (w1 ++ string_of_N home ++ w2) (string_of_N home)).
    - rewrite (Number_trim (w3 ++ string_of_N away ++ w4)
                 (string_of_N away)); [reflexivity|].
      rewrite trim_padded_digits, trim_digits;
        auto using string_of_N_digits; apply string_of_N_unfold.
    - rewrite trim_padded_digits, trim_digits;
        auto using string_of_N_digits; apply string_of_N_unfold. }
  unfold calculateEnhancedPredictedResult. rewrite Hparts. reflexivity.
Qed.

Lemma current_score_padding_immaterial_witness :
  all_chars is_whitespace " " = true
  /\ calculateEnhancedPredictedResult "Over" (Fin (qc 5 2)) None
       ((" " ++ string_of_N 2 ++ " ") ++ "-"
        ++ (" " ++ string_of_N 1 ++ " "))
     = calculateEnhancedPredictedResult "Over" (Fin (qc 5 2)) None
         (score_string 2 1).
Proof.
  assert (H : all_chars is_whitespace " " = true) by reflexivity.
  split; [exact H|].
  exact (current_score_padding_immaterial
           "Over" (Fin (qc 5 2)) None 2 1 " " " " " " " " H H H H).
Defined.

(** ** Properties of the text-based path *)

Lemma span_all p s : all_chars p s = true -> span p s = (s, "").
Proof.
  induction s as [|c s IH]; [reflexivity|].
  cbn [all_chars]. intro H. apply andb_true_iff in H. destruct H as [Hc Hs].
  cbn [span]. rewrite Hc, (IH Hs). reflexivity.
Qed.

Lemma span_digits_app ds t :
  digits_only ds = true ->
  match t with String c _ => is_digit c = false | EmptyString => True end ->
  span is_digit (ds ++ t) = (ds, t).
Proof.
  intros Hd Ht. induction ds as [|c ds IH].
  - destruct t as [|c t]; [reflexivity|]. cbn [append span].
    rewrite Ht. reflexivity.
  - apply digits_only_cons in Hd. destruct Hd as [Hc Hd].
    cbn [append span]. rewrite Hc, (IH Hd). reflexivity.
Qed.

Lemma digits_value_app ds t acc :
  digits_only ds = true ->
  digits_value 10 acc (ds ++ t)
  = digits_value 10 (digits_value 10 acc ds) t.
Proof.
  revert acc. induction ds as [|c ds IH]; intros acc Hd; [reflexivity|].
  apply digits_only_cons in Hd. destruct Hd as [Hc Hd].
  cbn [append digits_value].
  pose proof (digit_is_radix10 c Hc) as Hr. unfold is_radix_digit in Hr.
  destruct (digit_in_radix 10 c); [|discriminate].
  apply IH, Hd.
Qed.

Lemma digits_are_number_chars ds :
  digits_only ds = true -> all_chars is_number_char ds = true.
Proof.
  induction ds as [|c ds IH]; [reflexivity|].
  intro H. apply digits_only_cons in H. destruct H as [Hc Hd].
  cbn [all_chars]. unfold is_number_char at 1. rewrite Hc, (IH Hd).
  reflexivity.
Qed.

Lemma all_chars_app p s t :
  all_chars p (s ++ t) = all_chars p s && all_chars p t.
Proof.
  induction s as [|c s IH]; [reflexivity|].
  cbn [append all_chars]. rewrite IH, andb_assoc. reflexivity.
Qed.

Lemma line_text_number_chars w f :
  all_chars is_number_char (line_text w f) = true
  /\ line_text w f <> "".
Proof.
  unfold line_text. split.
  - rewrite all_chars_app.
    rewrite (digits_are_number_chars _ (string_of_N_digits w)).
    destruct f; reflexivity.
  - destruct (string_of_N_unfold w) as [_ Hne].
    destruct (string_of_N w); [congruence | discriminate].
Qed.

(** A quarter line written as text is read back as its value. *)
Lemma parseFloat_line_text w f :
  parseFloat_string (line_text w f) = Fin (qc (line_quarters w f) 4).
Proof.
  unfold parseFloat_string, line_text, line_quarters.
  pose proof (string_of_N_digits w) as Hd.
  destruct (string_of_N_unfold w) as [_ Hne].
  assert (Hstart : trim_start (string_of_N w ++ fraction_text f)
                   = string_of_N w ++ fraction_text f
                   /\ read_sign (string_of_N w ++ fraction_text f)
                      = (1%Z, string_of_N w ++ fraction_text f)
                   /\ startsWith (string_of_N w ++ fraction_text f)
                        "Infinity" = false).
  { destruct (string_of_N w) as [|c ds]; [congruence|].
    apply digits_only_cons in Hd. destruct Hd as [Hc _].
    cbn [append trim_start]. rewrite (digit_not_whitespace c Hc).
    digit_cases c Hc; repeat split; reflexivity. }
  destruct Hstart as (-> & -> & ->).
  rewrite span_digits_app by (assumption || (destruct f; cbn; auto)).
  rewrite (digits_nonempty_eqb _ Hne). cbn [andb].
  destruct f; cbn [fraction_text fraction_quarters];
    repeat match goal with
    | |- context [span is_digit ?t] =>
        let v := eval vm_compute in (span is_digit t) in
        change (span is_digit t) with v; cbv iota beta
    end;
    rewrite ?append_empty_r, ?digits_value_app by assumption;
    rewrite string_of_N_value; apply f_equal;
    unfold exponent_prefix, pow10;
    match goal with
    | |- context [if ?b then ?x else ?y] =>
        let p := fresh "p" in
        set (p := if b then x else y); vm_compute in p; subst p
    end;
    cbn [digits_value]; repeat eval_digit;
    qc_unfold; apply Q2Qc_eq_iff; qc_unfold;
    unfold Qeq; cbn [Qnum Qden Qmult]; lia.
Qed.

Lemma Qc_ltb_qc a b (d : positive) :
  Qc_ltb (qc a d) (qc b d) = (a <? b)%Z.
Proof.
  unfold Qc_ltb. change (Qle_bool (qc b d) (qc a d)) with (Qc_leb (qc b d) (qc a d)).
  rewrite Qc_leb_qc. symmetry. apply Z.ltb_antisym.
Qed.

Lemma of_Z_quarters t : of_Z t = Fin (qc (4 * t) 4).
Proof. unfold of_Z. f_equal. qc_eq. Qed.

Lemma rem_quarter w r :
  (0 <= w)%Z -> (0 <= r < 4)%Z ->
  rem (Fin (qc (4 * w + r) 4)) n1 = Fin (qc r 4).
Proof.
  intros Hw Hr. unfold rem, n1.
  change (Qc_eqb (qc 1 1) 0) with false. cbv iota.
  assert (Ht : truncate (qc (4 * w + r) 4 / qc 1 1) = w).
  { unfold truncate.
    assert (Heq : this (qc (4 * w + r) 4 / qc 1 1)%Qc == (4 * w + r) # 4).
    { qc_unfold. q_arith. }
    replace (Qle_bool 0 (this (qc (4 * w + r) 4 / qc 1 1)%Qc)) with true.
    - rewrite (Qfloor_comp _ _ Heq). unfold Qfloor.
      symmetry. apply (Z.div_unique _ _ w r); lia.
    - symmetry. apply Qle_bool_iff. rewrite Heq. q_arith. }
  rewrite Ht. f_equal. qc_eq.
Qed.

Lemma quarter_plus n : add (Fin (qc n 4)) n0_25 = Fin (qc (n + 1) 4).
Proof. unfold n0_25. cbn [add]. f_equal. qc_eq. Qed.

Lemma quarter_minus n : sub (Fin (qc n 4)) n0_25 = Fin (qc (n - 1) 4).
Proof. unfold n0_25, sub. cbn [neg add]. f_equal. qc_eq. Qed.

Lemma goal_line_match_text dir num :
  dir = "Over" \/ dir = "Under" ->
  all_chars is_number_char num = true -> num <> "" ->
  goal_line_match (dir ++ " " ++ num) = Some (dir, num).
Proof.
  intros Hdir Hnum Hne.
  assert (Hat : goal_line_at (dir ++ " " ++ num) = Some (dir, num)).
  { unfold goal_line_at, goal_line_word.
    destruct Hdir as [-> | ->];
      cbn [append startsWith Ascii.eqb Bool.eqb andb String.length drop];
      cbv iota;
      change (is_whitespace " ") with true; cbv iota;
      rewrite (span_all _ _ Hnum), (digits_nonempty_eqb _ Hne);
      reflexivity. }
  destruct (dir ++ " " ++ num); cbn [goal_line_match]; rewrite Hat;
    reflexivity.
Qed.

(** The totals rule of the text path on a quarter line and an integer
    total. *)
Lemma evaluateGoalLine_quarter dir whole f t :
  dir = "Over" \/ dir = "Under" ->
  evaluateGoalLine (dir ++ " " ++ line_text whole f) (of_Z t)
  = label (class_of_quarters
             (if dir =? "Over" then 4 * t - line_quarters whole f
              else line_quarters whole f - 4 * t)).
Proof.
  intro Hdir. unfold evaluateGoalLine.
  destruct (line_text_number_chars whole f) as [Hchars Hne].
  rewrite (goal_line_match_text dir _ Hdir Hchars Hne).
  rewrite parseFloat_line_text. unfold line_quarters.
  rewrite rem_quarter by (destruct f; cbn; lia).
  rewrite quarter_plus, quarter_minus, of_Z_quarters.
  unfold gt, lt, n0_25, n0_75. cbn [strict_eq].
  rewrite !Qc_ltb_qc, !Qc_eqb_qc.
  set (w := Z.of_N whole).
  assert (Hw : (0 <= w)%Z) by (subst w; lia).
  clearbody w. unfold class_of_quarters.
  destruct Hdir as [-> | ->]; eval_selection;
    destruct f; cbn [fraction_quarters Z.eqb orb andb];
    repeat match goal with
    | |- context [(?a <? ?b)%Z] => destruct (Z.ltb_spec a b)
    | |- context [(?a <=? ?b)%Z] => destruct (Z.leb_spec a b)
    | |- context [(?a =? ?b)%Z] => destruct (Z.eqb_spec a b)
    end; cbn [andb orb]; try reflexivity; lia.
Qed.

Lemma legacy_total_goals home away :
  let parts := split "-" (remove_whitespace (score_string home away)) in
  List.length parts = 2%nat
  /\ parseInt (nth 0 parts "") = of_Z (Z.of_N home)
  /\ parseInt (nth 1 parts "") = of_Z (Z.of_N away).
Proof.
  cbv zeta. rewrite remove_whitespace_score_string, split_score_string.
  cbn [List.length nth]. rewrite !parseInt_string_of_N. auto.
Qed.

Lemma calculatePredictedResult_totals dir whole f home away ht at' :
  dir = "Over" \/ dir = "Under" ->
  calculatePredictedResult
    (Some (dir ++ " " ++ line_text whole f))
    (Some (score_string home away)) ht at'
  = evaluateGoalLine (dir ++ " " ++ line_text whole f)
      (of_Z (Z.of_N home + Z.of_N away)).
Proof.
  intro Hdir. unfold calculatePredictedResult.
  pose proof (score_string_guard home away) as Hg.
  apply andb_true_iff in Hg. destruct Hg as [Ht Hna].
  apply negb_true_iff in Hna.
  cbn [present text]. rewrite Ht, Hna.
  destruct (legacy_total_goals home away) as (Hlen & Hh & Ha).
  cbv zeta in Hlen, Hh, Ha. rewrite Hlen, Hh, Ha.
  cbn [Nat.eqb negb orb isNaN of_Z]. rewrite add_of_Z.
  assert (Hinc : forall rest,
    includes (dir ++ rest) "Under" || includes (dir ++ rest) "Over" = true).
  { intro rest. destruct Hdir as [-> | ->].
    - apply orb_true_iff. right. reflexivity.
    - reflexivity. }
  rewrite Hinc.
  destruct Hdir as [-> | ->]; reflexivity.
Qed.

(** X7.  The text path and the structured path settle totals alike: for
    ["Over"] or ["Under"], a non-negative quarter line written as text
    and an ["H-A"] score, [calculatePredictedResult] (through
    [evaluateGoalLine]) returns exactly the label that starts the result
    of [calculateEnhancedPredictedResult] for the same line and score. *)
Theorem text_totals_agree_with_structured :
  forall (dir : string) (whole : N) (f : fraction) (home away : N)
         (bt : option string) (homeTeam awayTeam : option string)
         (c : OutcomeClass),
    dir = "Over" \/ dir = "Under" ->
    calculatePredictedResult
      (Some (dir ++ " " ++ line_text whole f))
      (Some (score_string home away)) homeTeam awayTeam
    = label c
    <-> has_outcome
          (calculateEnhancedPredictedResult
             dir (Fin (qc (line_quarters whole f) 4)) bt
             (score_string home away))
          c.
Proof.
  intros dir whole f home away bt ht at' c Hdir.
  rewrite (calculatePredictedResult_totals dir whole f home away ht at' Hdir).
  rewrite (evaluateGoalLine_quarter dir whole f _ Hdir).
  rewrite (totals_result dir _ bt home away Hdir).
  rewrite margin_quarter_value
    by (cbn; destruct Hdir as [-> | ->]; auto).
  rewrite outcome_label_quarter_class, has_outcome_label.
  destruct Hdir as [-> | ->]; eval_selection;
    (split; [intro H; destruct (class_of_quarters _), c;
                      try reflexivity; discriminate H
            | intros ->; reflexivity]).
Qed.

Lemma text_totals_agree_with_structured_witness :
  ("Over" = "Over" \/ "Over" = "Under")
  /\ (calculatePredictedResult
        (Some ("Over" ++ " " ++ line_text 2 ThreeQuarters))
        (Some (score_string 2 1)) None None
      = label HalfWin
      <-> has_outcome
            (calculateEnhancedPredictedResult
               "Over" (Fin (qc (line_quarters 2 ThreeQuarters) 4)) None
               (score_string 2 1))
            HalfWin).
Proof.
  split; [left; reflexivity|].
  exact (text_totals_agree_with_structured
           "Over" 2 ThreeQuarters 2 1 None None None HalfWin
           (or_introl eq_refl)).
Defined.

Lemma includes_false_tail c s sub :
  includes (String c s) sub = false -> includes s sub = false.
Proof.
  cbn [includes]. intro H. apply orb_false_iff in H. apply H.
Qed.

Lemma goal_line_word_needs_word dir s :
  startsWith s dir = false -> goal_line_word dir s = None.
Proof. intro H. unfold goal_line_word. rewrite H. reflexivity. Qed.

Lemma includes_false_head s sub :
  includes s sub = false -> startsWith s sub = false.
Proof.
  destruct s; cbn [includes]; intro H; apply orb_false_iff in H; apply H.
Qed.

(** X8.  A bet text in which neither ["Under"] nor ["Over"] occurs is
    not a totals bet: [evaluateGoalLine] returns ["Invalid"] for every
    total.  The words are matched with their capitals, so ["over 2.5"]
    is invalid. *)
Theorem goal_line_without_direction_is_invalid :
  forall (bet : string) (totalGoals : number),
    includes bet "Under" = false ->
    includes bet "Over" = false ->
    evaluateGoalLine bet totalGoals = "Invalid".
Proof.
  intros bet total HU HO. unfold evaluateGoalLine.
  assert (Hm : goal_line_match bet = None).
  { induction bet as [|c bet IH].
    - reflexivity.
    - cbn [goal_line_match]. unfold goal_line_at.
      rewrite (goal_line_word_needs_word "Under" _
                 (includes_false_head _ _ HU)).
      rewrite (goal_line_word_needs_word "Over" _
                 (includes_false_head _ _ HO)).
      apply IH; eapply includes_false_tail; eassumption. }
  rewrite Hm. reflexivity.
Qed.

Lemma goal_line_without_direction_is_invalid_witness :
  includes "over 2.5" "Under" = false
  /\ includes "over 2.5" "Over" = false
  /\ evaluateGoalLine "over 2.5" (of_Z 3) = "Invalid".
Proof.
  assert (HU : includes "over 2.5" "Under" = false) by reflexivity.
  assert (HO : includes "over 2.5" "Over" = false) by reflexivity.
  split; [exact HU|]. split; [exact HO|].
  exact (goal_line_without_direction_is_invalid "over 2.5" (of_Z 3) HU HO).
Defined.

Lemma name_char_not_sign c : is_name_char c = true -> is_sign c = false.
Proof.
  intro H. unfold is_sign.
  destruct (Ascii.eqb_spec c "+") as [-> | _]; [discriminate H|].
  destruct (Ascii.eqb_spec c "-") as [-> | _]; [discriminate H|].
  reflexivity.
Qed.

Lemma handicap_tail_text sg num :
  is_sign sg = true ->
  all_chars is_number_char num = true -> num <> "" ->
  handicap_tail (" " ++ String sg num) = Some (String sg num).
Proof.
  intros Hsg Hnum Hne. cbn [append handicap_tail].
  change (is_whitespace " ") with true. rewrite Hsg. cbn [andb].
  rewrite (span_all _ _ Hnum), (digits_nonempty_eqb _ Hne). reflexivity.
Qed.

Lemma handicap_tail_in_name c r sg num :
  all_chars is_name_char (String c r) = true ->
  handicap_tail (String c r ++ " " ++ String sg num) = None.
Proof.
  cbn [all_chars]. intro H. apply andb_true_iff in H. destruct H as [_ Hr].
  destruct r as [|c' r'].
  - cbn [append handicap_tail]. change (is_sign " ") with false.
    rewrite andb_false_r. reflexivity.
  - cbn [all_chars] in Hr. apply andb_true_iff in Hr. destruct Hr as [Hc' _].
    cbn [append handicap_tail]. rewrite (name_char_not_sign c' Hc').
    rewrite andb_false_r. reflexivity.
Qed.

(** The handicap pattern on a team name followed by a signed number:
    the first group is the whole name. *)
Lemma handicap_match_text nm sg num :
  all_chars is_name_char nm = true -> nm <> "" ->
  is_sign sg = true ->
  all_chars is_number_char num = true -> num <> "" ->
  handicap_match (nm ++ " " ++ String sg num) = Some (nm, String sg num).
Proof.
  intros Hnm Hne Hsg Hnum Hnum_ne.
  induction nm as [|c r IH]; [congruence|].
  pose proof Hnm as Hall. cbn [all_chars] in Hnm.
  apply andb_true_iff in Hnm. destruct Hnm as [Hc Hr].
  change (String c r ++ " " ++ String sg num)
    with (String c (r ++ " " ++ String sg num)).
  cbn [handicap_match]. unfold is_name_char in Hc. rewrite Hc.
  destruct r as [|c' r'].
  - change ("" ++ " " ++ String sg num) with (" " ++ String sg num).
    rewrite (handicap_tail_text sg num Hsg Hnum Hnum_ne). reflexivity.
  - rewrite (handicap_tail_in_name c' r' sg num Hr).
    rewrite (IH Hr ltac:(discriminate)). reflexivity.
Qed.

Lemma evaluateHandicap_chain nm sg num home away hg ag :
  all_chars is_name_char nm = true -> nm <> "" ->
  is_sign sg = true ->
  all_chars is_number_char num = true -> num <> "" ->
  evaluateHandicap (nm ++ " " ++ String sg num) home away hg ag
  = let backed := trim nm in
    if negb (backed =? home) && negb (backed =? away)
       && negb (includes (toLowerCase home) (toLowerCase backed)
                || includes (toLowerCase backed) (toLowerCase home))
       && negb (includes (toLowerCase away) (toLowerCase backed)
                || includes (toLowerCase backed) (toLowerCase away))
    then "Team Not Found"
    else
      outcome_label
        (add (if (backed =? home)
                 || includes (toLowerCase home) (toLowerCase backed)
              then sub hg ag else sub ag hg)
           (parseFloat_string (String sg num))).
Proof.
  intros Hnm Hne Hsg Hnum Hnum_ne. unfold evaluateHandicap.
  rewrite (handicap_match_text nm sg num Hnm Hne Hsg Hnum Hnum_ne).
  reflexivity.
Qed.

(** X9.  A handicap bet whose team text is exactly the home team name
    is scored on the home side: the result is the label of
    [homeGoals - awayGoals + handicap], whatever the away team is
    called. *)
Theorem handicap_on_home_name :
  forall (nm : string) (sg : ascii) (num away : string)
         (homeGoals awayGoals : number),
    all_chars is_name_char nm = true -> nm <> "" ->
    is_sign sg = true ->
    all_chars is_number_char num = true -> num <> "" ->
    evaluateHandicap (nm ++ " " ++ String sg num) (trim nm) away
      homeGoals awayGoals
    = outcome_label
        (add (sub homeGoals awayGoals)
           (parseFloat_string (String sg num))).
Proof.
  intros nm sg num away hg ag Hnm Hne Hsg Hnum Hnum_ne.
  rewrite (evaluateHandicap_chain nm sg num _ _ hg ag
             Hnm Hne Hsg Hnum Hnum_ne).
  cbv zeta. rewrite String.eqb_refl. reflexivity.
Qed.

Lemma handicap_on_home_name_witness :
  all_chars is_name_char "Manchester United" = true
  /\ evaluateHandicap ("Manchester United" ++ " " ++ String "-" "0.25")
       (trim "Manchester United") "Leeds" (of_Z 1) (of_Z 1)
     = outcome_label
         (add (sub (of_Z 1) (of_Z 1))
            (parseFloat_string (String "-" "0.25"))).
Proof.
  assert (Hnm : all_chars is_name_char "Manchester United" = true)
    by reflexivity.
  split; [exact Hnm|].
  exact (handicap_on_home_name "Manchester United" "-" "0.25" "Leeds"
           (of_Z 1) (of_Z 1) Hnm ltac:(discriminate) eq_refl eq_refl
           ltac:(discriminate)).
Defined.

(** X10.  A handicap bet whose team text is exactly the away team name,
    and not the home team name, is scored on the away side only when
    the home name does not contain it; when the lower-cased home name
    contains the lower-cased text, the bet is scored on the home side. *)
Theorem handicap_on_away_name :
  forall (nm : string) (sg : ascii) (num home : string)
         (homeGoals awayGoals : number),
    all_chars is_name_char nm = true -> nm <> "" ->
    is_sign sg = true ->
    all_chars is_number_char num = true -> num <> "" ->
    trim nm <> home ->
    evaluateHandicap (nm ++ " " ++ String sg num) home (trim nm)
      homeGoals awayGoals
    = outcome_label
        (add (if includes (toLowerCase home) (toLowerCase (trim nm))
              then sub homeGoals awayGoals
              else sub awayGoals homeGoals)
           (parseFloat_string (String sg num))).
Proof.
  intros nm sg num home hg ag Hnm Hne Hsg Hnum Hnum_ne Hhome.
  rewrite (evaluateHandicap_chain nm sg num _ _ hg ag
             Hnm Hne Hsg Hnum Hnum_ne).
  cbv zeta. rewrite String.eqb_refl.
  apply String.eqb_neq in Hhome. rewrite Hhome.
  cbn [negb andb orb]. reflexivity.
Qed.

Lemma handicap_on_away_name_witness :
  trim "Real Madrid" <> "Real Madrid B"
  /\ evaluateHandicap ("Real Madrid" ++ " " ++ String "+" "0.5")
       "Real Madrid B" (trim "Real Madrid") (of_Z 0) (of_Z 2)
     = outcome_label
         (add (if includes (toLowerCase "Real Madrid B")
                    (toLowerCase (trim "Real Madrid"))
               then sub (of_Z 0) (of_Z 2)
               else sub (of_Z 2) (of_Z 0))
            (parseFloat_string (String "+" "0.5"))).
Proof.
  assert (Hhome : trim "Real Madrid" <> "Real Madrid B")
    by (vm_compute; discriminate).
  split; [exact Hhome|].
  exact (handicap_on_away_name "Real Madrid" "+" "0.5" "Real Madrid B"
           (of_Z 0) (of_Z 2) eq_refl ltac:(discriminate) eq_refl eq_refl
           ltac:(discriminate) Hhome).
Defined.

(** X11.  A team text that is neither team name but contains the home
    team name (in lower case), while the home name does not contain it,
    is accepted as a bet on the home team and then scored on the away
    side: the result is the label of
    [awayGoals - homeGoals + handicap]. *)
Theorem handicap_on_longer_home_name :
  forall (nm : string) (sg : ascii) (num home away : string)
         (homeGoals awayGoals : number),
    all_chars is_name_char nm = true -> nm <> "" ->
    is_sign sg = true ->
    all_chars is_number_char num = true -> num <> "" ->
    trim nm <> home -> trim nm <> away ->
    includes (toLowerCase (trim nm)) (toLowerCase home) = true ->
    includes (toLowerCase home) (toLowerCase (trim nm)) = false ->
    evaluateHandicap (nm ++ " " ++ String sg num) home away
      homeGoals awayGoals
    = outcome_label
        (add (sub awayGoals homeGoals)
           (parseFloat_string (String sg num))).
Proof.
  intros nm sg num home away hg ag Hnm Hne Hsg Hnum Hnum_ne
         Hhome Haway Hin Hout.
  rewrite (evaluateHandicap_chain nm sg num _ _ hg ag
             Hnm Hne Hsg Hnum Hnum_ne).
  cbv zeta. apply String.eqb_neq in Hhome, Haway.
  rewrite Hhome, Haway, Hin, Hout.
  cbn [negb andb orb]. reflexivity.
Qed.

Lemma handicap_on_longer_home_name_witness :
  includes (toLowerCase (trim "Arsenal FC")) (toLowerCase "Arsenal") = true
  /\ includes (toLowerCase "Arsenal") (toLowerCase (trim "Arsenal FC"))
     = false
  /\ evaluateHandicap ("Arsenal FC" ++ " " ++ String "+" "0.5")
       "Arsenal" "Liverpool" (of_Z 1) (of_Z 0)
     = outcome_label
         (add (sub (of_Z 0) (of_Z 1))
            (parseFloat_string (String "+" "0.5"))).
Proof.
  assert (Hin : includes (toLowerCase (trim "Arsenal FC"))
                  (toLowerCase "Arsenal") = true) by reflexivity.
  assert (Hout : includes (toLowerCase "Arsenal")
                   (toLowerCase (trim "Arsenal FC")) = false)
    by reflexivity.
  split; [exact Hin|]. split; [exact Hout|].
  exact (handicap_on_longer_home_name "Arsenal FC" "+" "0.5"
           "Arsenal" "Liverpool" (of_Z 1) (of_Z 0)
           eq_refl ltac:(discriminate) eq_refl eq_refl ltac:(discriminate)
           ltac:(vm_compute; discriminate) ltac:(vm_compute; discriminate)
           Hin Hout).
Defined.

Lemma parseFloat_string_signed sg c t :
  is_sign sg = true -> is_digit c = true ->
  parseFloat_string (String sg (String c t))
  = mul (Fin (qc (if Ascii.eqb sg "-" then -1 else 1) 1))
        (parseFloat_string (String c t)).
Proof.
  intros Hsg Hc.
  assert (Hrhs : trim_start (String c t) = String c t
                 /\ read_sign (String c t) = (1%Z, String c t)).
  { cbn [trim_start]. rewrite (digit_not_whitespace c Hc).
    digit_cases c Hc; split; reflexivity. }
  destruct Hrhs as [Htrim Hsign].
  assert (Hlhs : trim_start (String sg (String c t)) = String sg (String c t)
                 /\ read_sign (String sg (String c t))
                    = ((if Ascii.eqb sg "-" then -1 else 1)%Z, String c t)).
  { unfold is_sign in Hsg. apply orb_true_iff in Hsg.
    destruct Hsg as [Hsg | Hsg]; apply Ascii.eqb_eq in Hsg; subst sg;
      split; reflexivity. }
  destruct Hlhs as [Htrim' Hsign'].
  unfold parseFloat_string.
  rewrite Htrim, Hsign, Htrim', Hsign'.
  destruct (startsWith (String c t) "Infinity") eqn:Hinf.
  { exfalso. digit_cases c Hc; discriminate Hinf. }
  destruct (span is_digit (String c t)) as [ip r1].
  destruct (match r1 with
            | String "." r => span is_digit r
            | _ => ("", r1)
            end) as [fp r2].
  destruct ((ip =? "") && (fp =? "")); [reflexivity|].
  cbn [mul]. f_equal.
  change (qc 1 1) with 1%Qc. ring.
Qed.

Lemma parseFloat_signed_line_text sg whole f :
  is_sign sg = true ->
  parseFloat_string (String sg (line_text whole f))
  = Fin (qc ((if Ascii.eqb sg "-" then -1 else 1) * line_quarters whole f)
           4).
Proof.
  intro Hsg.
  pose proof (parseFloat_line_text whole f) as Hval.
  pose proof (string_of_N_digits whole) as Hd.
  destruct (string_of_N_unfold whole) as [_ Hne].
  unfold line_text in *.
  destruct (string_of_N whole) as [|c ds]; [congruence|].
  apply digits_only_cons in Hd. destruct Hd as [Hc _].
  change (String c ds ++ fraction_text f)
    with (String c (ds ++ fraction_text f)) in *.
  rewrite (parseFloat_string_signed sg c _ Hsg Hc), Hval.
  cbn [mul]. f_equal. qc_eq.
Qed.

(** X12.  The text path and the structured path settle a handicap on
    the home team alike: for a bet text made of the home team name, a
    sign and a quarter line, and integer goals, [evaluateHandicap]
    returns exactly the label that starts the result of
    [calculateEnhancedPredictedResult] for ["Home Team"], the signed
    line and the score ["H-A"] without bet-time score. *)
Theorem text_handicap_agrees_with_structured :
  forall (nm : string) (sg : ascii) (whole : N) (f : fraction)
         (awayTeam : string) (home away : N) (c : OutcomeClass),
    all_chars is_name_char nm = true -> nm <> "" ->
    is_sign sg = true ->
    evaluateHandicap (nm ++ " " ++ String sg (line_text whole f))
      (trim nm) awayTeam (of_Z (Z.of_N home)) (of_Z (Z.of_N away))
    = label c
    <-> has_outcome
          (calculateEnhancedPredictedResult "Home Team"
             (Fin (qc ((if Ascii.eqb sg "-" then -1 else 1)
                       * line_quarters whole f) 4))
             None (score_string home away))
          c.
Proof.
  intros nm sg whole f awayTeam home away c Hnm Hne Hsg.
  destruct (line_text_number_chars whole f) as [Hchars Htext].
  rewrite (evaluateHandicap_chain nm sg _ _ awayTeam _ _
             Hnm Hne Hsg Hchars Htext).
  cbv zeta. rewrite String.eqb_refl. cbn [negb andb orb].
  rewrite (parseFloat_signed_line_text sg whole f Hsg).
  pose proof (team_result "Home Team"
                (Fin (qc ((if Ascii.eqb sg "-" then -1 else 1)
                          * line_quarters whole f) 4))
                None home away (or_introl eq_refl)) as Hr.
  cbn [snapshot_string since] in Hr. rewrite Hr.
  rewrite margin_quarter_value by (cbn; auto). eval_selection.
  rewrite sub_of_Z, add_Z_quarter, !outcome_label_quarter_class.
  rewrite has_outcome_label.
  split; [intro H; destruct (class_of_quarters _), c;
                   try reflexivity; discriminate H
         | intros ->; reflexivity].
Qed.

Lemma text_handicap_agrees_with_structured_witness :
  all_chars is_name_char "Arsenal" = true
  /\ (evaluateHandicap ("Arsenal" ++ " " ++ String "+" (line_text 1 Quarter))
        (trim "Arsenal") "Liverpool" (of_Z (Z.of_N 0)) (of_Z (Z.of_N 1))
      = label HalfWin
      <-> has_outcome
            (calculateEnhancedPredictedResult "Home Team"
               (Fin (qc ((if Ascii.eqb "+" "-" then -1 else 1)
                         * line_quarters 1 Quarter) 4))
               None (score_string 0 1))
            HalfWin).
Proof.
  assert (Hnm : all_chars is_name_char "Arsenal" = true) by reflexivity.
  split; [exact Hnm|].
  exact (text_handicap_agrees_with_structured
           "Arsenal" "+" 1 Quarter "Liverpool" 0 1 HalfWin
           Hnm ltac:(discriminate) eq_refl).
Defined.

Lemma split_length s : List.length (split "-" s) = S (count "-" s).
Proof.
  induction s as [|c s IH]; [reflexivity|].
  cbn [split count]. destruct (Ascii.eqb c "-").
  - cbn [List.length]. rewrite IH. reflexivity.
  - destruct (split "-" s) as [|piece pieces]; [discriminate IH|].
    exact IH.
Qed.

Lemma count_separator_remove_whitespace s :
  count "-" (remove_whitespace s) = count "-" s.
Proof.
  induction s as [|c s IH]; [reflexivity|].
  cbn [remove_whitespace count].
  destruct (is_whitespace c) eqn:Hw.
  - rewrite (whitespace_not_separator c Hw). exact IH.
  - cbn [count]. rewrite IH. reflexivity.
Qed.

(** X13.  [calculatePredictedResult] rejects a score text that does not
    hold exactly one ['-']: with a non-empty selection and a score text
    that is neither empty nor ['N/A'], the result is ['Invalid Score']
    whatever the selection and the teams.  A score with a negative
    number, such as ["-1-2"], is rejected this way. *)
Theorem score_text_without_single_dash_is_invalid :
  forall (selection scoreText : string) (homeTeam awayTeam : option string),
    selection <> "" -> scoreText <> "" -> scoreText <> "N/A" ->
    count "-" scoreText <> 1%nat ->
    calculatePredictedResult
      (Some selection) (Some scoreText) homeTeam awayTeam
    = "Invalid Score".
Proof.
  intros sel st ht at' Hsel Hst Hna Hcount.
  unfold calculatePredictedResult. cbn [present text]. unfold truthy.
  rewrite (digits_nonempty_eqb _ Hsel), (digits_nonempty_eqb _ Hst).
  apply String.eqb_neq in Hna. rewrite Hna. cbn [negb orb].
  rewrite split_length, count_separator_remove_whitespace.
  destruct (Nat.eqb_spec (S (count "-" st)) 2) as [Heq | _];
    [lia | reflexivity].
Qed.

Lemma score_text_without_single_dash_is_invalid_witness :
  count "-" "-1-2" <> 1%nat
  /\ calculatePredictedResult (Some "Over 2.5") (Some "-1-2") None None
     = "Invalid Score".
Proof.
  assert (Hc : count "-" "-1-2" <> 1%nat) by (vm_compute; discriminate).
  split; [exact Hc|].
  exact (score_text_without_single_dash_is_invalid
           "Over 2.5" "-1-2" None None
           ltac:(discriminate) ltac:(discriminate) ltac:(discriminate) Hc).
Defined.

(** X14.  A current score with a leading minus sign is not rejected:
    ["-H-A"] splits into an empty piece, [H] and [A]; the empty piece is
    read as 0 and the third piece is never looked at, so the result is
    the one of the score ["0-H"]. *)
Theorem negative_home_score_is_read_as_zero :
  forall (sel : string) (line : number) (bt : option string)
         (home away : N),
    calculateEnhancedPredictedResult sel line bt
      ("-" ++ score_string home away)
    = calculateEnhancedPredictedResult sel line bt (score_string 0 home).
Proof.
  intros sel line bt home away.
  unfold calculateEnhancedPredictedResult.
  change (split "-" ("-" ++ score_string home away))
    with ("" :: split "-" (score_string home away)).
  rewrite !split_score_string. cbn [map element nth_error].
  rewrite !Number_string_of_N. reflexivity.
Qed.

(** ** Properties of the simulation's settlement *)


Lemma In_selections_cases s :
  In s selections <->
  s = "Home Team" \/ s = "Away Team" \/ s = "Over" \/ s = "Under".
Proof.
  unfold selections. cbn [In]. intuition congruence.
Qed.

Lemma selectionCombo_given b s :
  Simulation.or_else (Simulation.Bet_Selection b) (Simulation.bet_selection b)
  = Some s ->
  s <> "" ->
  Simulation.selectionCombo b
  = if s =? "Home" then "Home Team"
    else if s =? "Away" then "Away Team" else s.
Proof.
  intros Hgiven Hne. unfold Simulation.selectionCombo.
  rewrite Hgiven. cbn [present text]. unfold truthy.
  rewrite (digits_nonempty_eqb _ Hne). cbn [negb].
  destruct (String.eqb_spec s "Home") as [-> | _]; reflexivity.
Qed.

Lemma selectionCombo_fallback b :
  present (Simulation.or_else (Simulation.Bet_Selection b)
             (Simulation.bet_selection b)) = false ->
  In (Simulation.selectionCombo b) selections.
Proof.
  intro Hnone. unfold Simulation.selectionCombo. rewrite Hnone.
  cbn [negb].
  repeat match goal with
  | |- context [if ?b then _ else _] =>
      match b with
      | String.eqb _ _ => fail 1
      | _ => destruct b
      end
  end; cbn; auto.
Qed.

(** X15.  Whatever its text fields hold, a bet for which neither
    [Bet_Selection] nor [bet_selection] is given is handed to the engine
    with one of the four recognised selections, and so is a bet whose
    given selection is one of them or ["Home"] or ["Away"]; its
    settlement result then carries one of the five classes for every
    event. *)
Theorem simulation_selection_is_recognised :
  forall (b : Simulation.bet) (e : Simulation.event),
    let given :=
      Simulation.or_else (Simulation.Bet_Selection b)
        (Simulation.bet_selection b) in
    present given = false \/ In (text given) named_selections ->
    In (Simulation.selectionCombo b) selections
    /\ exists c, has_outcome (Simulation.settlement_result b e) c.
Proof.
  intros b e given Hgiven.
  assert (Hsel : In (Simulation.selectionCombo b) selections).
  { destruct Hgiven as [Hnone | Hnamed].
    - apply selectionCombo_fallback, Hnone.
    - subst given.
      destruct (Simulation.or_else _ _) as [s|] eqn:Hg;
        [| cbn in Hnamed; intuition discriminate].
      cbn [text] in Hnamed.
      assert (Hne : s <> "")
        by (intros ->; cbn in Hnamed; intuition discriminate).
      rewrite (selectionCombo_given b s Hg Hne).
      unfold named_selections in Hnamed. cbn [In] in Hnamed.
      destruct Hnamed as [<- | [<- | [<- | [<- | [<- | [<- | []]]]]]];
        cbn; auto. }
  split; [exact Hsel|].
  unfold Simulation.settlement_result.
  destruct (enhanced_shape _ (Simulation.selection_line b)
              (Simulation.bet_time_score b) (Simulation.score_text e) Hsel)
    as (x & detail & ->).
  destruct (outcome_label_class x) as [c ->].
  exists c, detail. reflexivity.
Qed.

Lemma simulation_selection_is_recognised_witness :
  present (Simulation.or_else None (Some "")) = false
  /\ In (Simulation.selectionCombo
           (Simulation.mkBet "b1" None (Some "") (Some "Asian Handicap")
              None (Fin (qc (-1) 2)) None Simulation.StakeOther Undefined
              (Fin (qc 186 100))))
        selections.
Proof.
  split; [reflexivity|].
  exact (proj1 (simulation_selection_is_recognised
                  (Simulation.mkBet "b1" None (Some "")
                     (Some "Asian Handicap") None (Fin (qc (-1) 2)) None
                     Simulation.StakeOther Undefined (Fin (qc 186 100)))
                  (Simulation.mkEvent Undefined Undefined)
                  (or_introl eq_refl))).
Defined.

Lemma add_zero_r x : add x n0 = x.
Proof.
  destruct x; try reflexivity. unfold n0. cbn [add]. f_equal.
  change (qc 0 1) with 0%Qc. ring.
Qed.

(** X16.  A bet whose given selection is none of the four recognised
    values nor ["Home"] nor ["Away"] is settled without any payout: the
    bankroll, the win count and the loss count are left as they were
    and the character is left in the [thinking] state, whatever the
    event, the line, the stake and the odds. *)
Theorem simulation_unknown_selection_pays_nothing :
  forall (b : Simulation.bet) (e : Simulation.event)
         (c : Simulation.character) (s : string),
    Simulation.or_else (Simulation.Bet_Selection b)
      (Simulation.bet_selection b) = Some s ->
    s <> "" -> ~ In s named_selections ->
    let c' := Simulation.settleBet b e c in
    Simulation.bankroll c' = Simulation.bankroll c
    /\ Simulation.state c' = "thinking"
    /\ Simulation.totalWins (Simulation.char_stats c')
       = Simulation.totalWins (Simulation.char_stats c)
    /\ Simulation.totalLosses (Simulation.char_stats c')
       = Simulation.totalLosses (Simulation.char_stats c)
    /\ Simulation.totalPayout (Simulation.char_stats c')
       = Simulation.totalPayout (Simulation.char_stats c).
Proof.
  intros b e c s Hgiven Hne Hnot c'. subst c'.
  unfold named_selections in Hnot. cbn [In] in Hnot.
  assert (Hsel : Simulation.selectionCombo b = s).
  { rewrite (selectionCombo_given b s Hgiven Hne).
    destruct (String.eqb_spec s "Home"); [intuition congruence|].
    destruct (String.eqb_spec s "Away"); [intuition congruence|].
    reflexivity. }
  assert (Hres : Simulation.settlement_result b e = "Pending").
  { unfold Simulation.settlement_result. rewrite Hsel.
    unfold calculateEnhancedPredictedResult.
    destruct (adjusted_goals _ _ _) as [ah aa].
    destruct (String.eqb_spec s "Home Team"); [intuition congruence|].
    destruct (String.eqb_spec s "Away Team"); [intuition congruence|].
    destruct (String.eqb_spec s "Over"); [intuition congruence|].
    destruct (String.eqb_spec s "Under"); [intuition congruence|].
    reflexivity. }
  unfold Simulation.settleBet, Simulation.settlement_payout.
  rewrite Hres.
  cbn [Simulation.bankroll Simulation.state Simulation.char_stats
       Simulation.totalWins Simulation.totalLosses Simulation.totalPayout].
  change (calculatePayout "Pending" _ _) with n0.
  rewrite !add_zero_r. repeat split; reflexivity.
Qed.

Lemma simulation_unknown_selection_pays_nothing_witness :
  ~ In "Draw" named_selections
  /\ Simulation.bankroll
       (Simulation.settleBet
          (Simulation.mkBet "b1" (Some "Draw") None None None
             (Fin (qc (-1) 2)) None Simulation.StakeOther
             (Num (of_Z 100)) (Fin (qc 186 100)))
          (Simulation.mkEvent (Num (of_Z 2)) (Num (of_Z 1)))
          (Simulation.createCharacter "Benny"))
     = Simulation.bankroll (Simulation.createCharacter "Benny").
Proof.
  assert (Hnot : ~ In "Draw" named_selections).
  { unfold named_selections. cbn [In].
    intros [H | [H | [H | [H | [H | [H | []]]]]]]; discriminate H. }
  split; [exact Hnot|].
  exact (proj1 (simulation_unknown_selection_pays_nothing
                  (Simulation.mkBet "b1" (Some "Draw") None None None
                     (Fin (qc (-1) 2)) None Simulation.StakeOther
                     (Num (of_Z 100)) (Fin (qc 186 100)))
                  (Simulation.mkEvent (Num (of_Z 2)) (Num (of_Z 1)))
                  (Simulation.createCharacter "Benny") "Draw"
                  eq_refl ltac:(discriminate) Hnot)).
Defined.

(** X17.  [settleBet] pays by class and counts only full results: when
    the settlement result carries class [cls], the bankroll and the
    total payout grow by the payout of [cls] at the parsed stake (100
    when it is missing, zero or [NaN]) and the bet's price, the win
    count grows by one for a Win only, the loss count by one for a Loss
    only, and a Half Win, a Push and a Half Loss change neither count. *)
Theorem simulation_settlement_by_class :
  forall (b : Simulation.bet) (e : Simulation.event)
         (c : Simulation.character) (cls : OutcomeClass),
    has_outcome (Simulation.settlement_result b e) cls ->
    let c' := Simulation.settleBet b e c in
    let payout :=
      payout_of cls (or_default (Simulation.parsedStake b) (of_Z 100))
        (Simulation.price b) in
    Simulation.bankroll c' = add (Simulation.bankroll c) payout
    /\ Simulation.totalPayout (Simulation.char_stats c')
       = add (Simulation.totalPayout (Simulation.char_stats c)) payout
    /\ Simulation.totalWins (Simulation.char_stats c')
       = match cls with
         | Win => Simulation.increment
                    (Simulation.totalWins (Simulation.char_stats c))
         | _ => Simulation.totalWins (Simulation.char_stats c)
         end
    /\ Simulation.totalLosses (Simulation.char_stats c')
       = match cls with
         | Loss => Simulation.increment
                     (Simulation.totalLosses (Simulation.char_stats c))
         | _ => Simulation.totalLosses (Simulation.char_stats c)
         end
    /\ Simulation.emotion c' = getEmotionFromResult (label cls).
Proof.
  intros b e c cls [detail Hr] c' payout. subst c' payout.
  unfold Simulation.settleBet, Simulation.settlement_payout.
  rewrite Hr.
  cbn [Simulation.bankroll Simulation.char_stats Simulation.totalWins
       Simulation.totalLosses Simulation.totalPayout Simulation.emotion].
  destruct cls; repeat split; reflexivity.
Qed.

Lemma simulation_settlement_by_class_witness :
  has_outcome
    (Simulation.settlement_result
       (Simulation.mkBet "b1" (Some "Over") None None None
          (Fin (qc 11 4)) None Simulation.StakeOther
          (Num (of_Z 100)) (Fin (qc 186 100)))
       (Simulation.mkEvent (Num (of_Z 2)) (Num (of_Z 1))))
    HalfWin
  /\ Simulation.totalWins
       (Simulation.char_stats
          (Simulation.settleBet
             (Simulation.mkBet "b1" (Some "Over") None None None
                (Fin (qc 11 4)) None Simulation.StakeOther
                (Num (of_Z 100)) (Fin (qc 186 100)))
             (Simulation.mkEvent (Num (of_Z 2)) (Num (of_Z 1)))
             (Simulation.createCharacter "Benny")))
     = Simulation.totalWins
         (Simulation.char_stats (Simulation.createCharacter "Benny")).
Proof.
  assert (H : has_outcome
    (Simulation.settlement_result
       (Simulation.mkBet "b1" (Some "Over") None None None
          (Fin (qc 11 4)) None Simulation.StakeOther
          (Num (of_Z 100)) (Fin (qc 186 100)))
       (Simulation.mkEvent (Num (of_Z 2)) (Num (of_Z 1))))
    HalfWin).
  { exists "Over (2.75) (3 goals)". vm_compute. reflexivity. }
  split; [exact H|].
  exact (proj1 (proj2 (proj2
           (simulation_settlement_by_class _ _
              (Simulation.createCharacter "Benny") HalfWin H)))).
Defined.

Lemma or_default_of_Z z d :
  or_default (Num (of_Z z)) d = if (z =? 0)%Z then d else of_Z z.
Proof.
  unfold or_default, of_Z. change 0%Qc with (qc 0 1).
  rewrite Qc_eqb_qc. reflexivity.
Qed.

(** X18.  Placing a bet with a numeric integer stake [S] and settling
    it: on a Push the bankroll [B] comes back to [B] when [S] is not
    zero, on a Loss it ends at [B - S].  A stake of 0 is deducted as 0
    but settled as the default 100, so a Push then leaves [B + 100]. *)
Theorem simulation_place_then_settle :
  forall (c : Simulation.character) (b : Simulation.bet)
         (e : Simulation.event) (B S : Z),
    Simulation.bankroll c = of_Z B ->
    Simulation.stake b = Simulation.StakeNumber (of_Z S) ->
    let placed := Simulation.placeBet c b in
    let c' := Simulation.settleBet (snd placed) e (fst placed) in
    (has_outcome (Simulation.settlement_result b e) Push ->
       Simulation.bankroll c'
       = of_Z (B - S + (if (S =? 0)%Z then 100 else S)))
    /\ (has_outcome (Simulation.settlement_result b e) Loss ->
          Simulation.bankroll c' = of_Z (B - S)).
Proof.
  intros c b e B S HB HS placed c'. subst c' placed.
  unfold Simulation.placeBet. cbn [fst snd].
  unfold Simulation.settleBet, Simulation.settlement_payout.
  cbn [Simulation.bankroll Simulation.parsedStake Simulation.price].
  change (Simulation.settlement_result (Simulation.mkBet _ _ _ _ _ _ _ _ _ _) e)
    with (Simulation.settlement_result b e).
  unfold Simulation.stake_of. rewrite HS, HB, or_default_of_Z.
  split; intros [detail ->].
  - change (calculatePayout (label Push ++ " - " ++ detail) ?s ?o) with s.
    rewrite sub_of_Z. destruct (S =? 0)%Z; rewrite add_of_Z; reflexivity.
  - change (calculatePayout (label Loss ++ " - " ++ detail) _ _) with n0.
    rewrite sub_of_Z, add_zero_r. reflexivity.
Qed.

Lemma simulation_place_then_settle_witness :
  Simulation.bankroll (Simulation.createCharacter "Benny") = of_Z 10000
  /\ Simulation.bankroll
       (Simulation.settleBet
          (snd (Simulation.placeBet (Simulation.createCharacter "Benny")
                  (Simulation.mkBet "b1" (Some "Over") None None None
                     (of_Z 3) None (Simulation.StakeNumber (of_Z 0))
                     Undefined (Fin (qc 186 100)))))
          (Simulation.mkEvent (Num (of_Z 2)) (Num (of_Z 1)))
          (fst (Simulation.placeBet (Simulation.createCharacter "Benny")
                  (Simulation.mkBet "b1" (Some "Over") None None None
                     (of_Z 3) None (Simulation.StakeNumber (of_Z 0))
                     Undefined (Fin (qc 186 100))))))
     = of_Z (10000 - 0 + (if (0 =? 0)%Z then 100 else 0)).
Proof.
  split; [reflexivity|].
  apply (proj1 (simulation_place_then_settle
                  (Simulation.createCharacter "Benny")
                  (Simulation.mkBet "b1" (Some "Over") None None None
                     (of_Z 3) None (Simulation.StakeNumber (of_Z 0))
                     Undefined (Fin (qc 186 100)))
                  (Simulation.mkEvent (Num (of_Z 2)) (Num (of_Z 1)))
                  10000 0 eq_refl eq_refl)).
  exists "Over (3) (3 goals)". vm_compute. reflexivity.
Defined.

Lemma remove_currency_digit c r :
  is_digit c = true ->
  Simulation.remove_currency (String c r)
  = String c (Simulation.remove_currency r).
Proof.
  intro Hc. destruct r as [|c2 [|c3 r3]];
    digit_cases c Hc; reflexivity.
Qed.

Lemma remove_currency_digits ds :
  digits_only ds = true -> Simulation.remove_currency ds = ds.
Proof.
  induction ds as [|c ds IH]; [reflexivity|].
  intro H. apply digits_only_cons in H. destruct H as [Hc Hd].
  rewrite (remove_currency_digit c ds Hc), (IH Hd). reflexivity.
Qed.

Lemma parseFloat_string_of_N n :
  parseFloat_string (string_of_N n) = of_Z (Z.of_N n).
Proof.
  pose proof (parseFloat_line_text n Whole) as H.
  unfold line_text, line_quarters in H. cbn [fraction_text] in H.
  rewrite append_empty_r in H. rewrite H, of_Z_quarters.
  cbn [fraction_quarters]. f_equal. f_equal. lia.
Qed.

(** Removing currency signs, trimming and reading a sign only drop
    characters. *)
Lemma all_chars_remove_currency p s :
  all_chars p s = true -> all_chars p (Simulation.remove_currency s) = true.
Proof.
  assert (H : forall n s, (String.length s <= n)%nat ->
            all_chars p s = true ->
            all_chars p (Simulation.remove_currency s) = true).
  { clear s. induction n as [|n IH]; intros s Hn Hs.
    - destruct s; [reflexivity|cbn in Hn; lia].
    - destruct s as [|c r]; [reflexivity|].
      cbn [String.length] in Hn.
      cbn [all_chars] in Hs. apply andb_true_iff in Hs.
      destruct Hs as [Hc Hr].
      assert (Hrr : all_chars p (Simulation.remove_currency r) = true)
        by (apply IH; [lia|exact Hr]).
      cbn [Simulation.remove_currency].
      destruct (Ascii.eqb c "$" || Ascii.eqb c ","); [exact Hrr|].
      destruct r as [|c2 r2]; [cbn [all_chars]; rewrite Hc; reflexivity|].
      cbn [String.length] in Hn.
      cbn [all_chars] in Hr. apply andb_true_iff in Hr.
      destruct Hr as [Hc2 Hr2].
      destruct (_ && _).
      + apply IH; [lia|exact Hr2].
      + destruct r2 as [|c3 r3].
        * cbn [all_chars]. rewrite Hc. exact Hrr.
        * cbn [String.length] in Hn.
          cbn [all_chars] in Hr2. apply andb_true_iff in Hr2.
          destruct Hr2 as [Hc3 Hr3].
          destruct (_ && _ && _).
          -- apply IH; [lia|exact Hr3].
          -- cbn [all_chars]. rewrite Hc. exact Hrr. }
  apply (H (String.length s)). lia.
Qed.

Lemma all_chars_trim_start p s :
  all_chars p s = true -> all_chars p (trim_start s) = true.
Proof.
  induction s as [|c r IH]; [reflexivity|].
  intro H. cbn [trim_start].
  destruct (is_whitespace c); [|exact H].
  cbn [all_chars] in H. apply andb_true_iff in H. apply IH, H.
Qed.

Lemma all_chars_read_sign p s :
  all_chars p s = true -> all_chars p (snd (read_sign s)) = true.
Proof.
  intro H. unfold read_sign.
  destruct s as [|c r]; [reflexivity|].
  assert (Hr : all_chars p r = true).
  { cbn [all_chars] in H. apply andb_true_iff in H. apply H. }
  destruct c as [[] [] [] [] [] [] [] []]; cbn [snd]; assumption.
Qed.

Lemma span_no_digit s :
  all_chars (fun c => negb (is_digit c || Ascii.eqb c "I")) s = true ->
  span is_digit s = (EmptyString, s).
Proof.
  destruct s as [|c r]; [reflexivity|].
  cbn [all_chars span]. intro H. apply andb_true_iff in H.
  destruct H as [Hc _]. apply negb_true_iff, orb_false_iff in Hc.
  destruct Hc as [-> _]. reflexivity.
Qed.

(** A text without a decimal digit and without a capital I is not read
    by [parseFloat]. *)
Lemma parseFloat_string_no_digit s :
  all_chars (fun c => negb (is_digit c || Ascii.eqb c "I")) s = true ->
  parseFloat_string s = NaN.
Proof.
  intro H. unfold parseFloat_string.
  pose proof (all_chars_read_sign _ _ (all_chars_trim_start _ _ H)) as Hu.
  destruct (read_sign (trim_start s)) as [sign u]. cbn [snd] in Hu.
  assert (Hinf : startsWith u "Infinity" = false).
  { destruct u as [|c r]; [reflexivity|].
    cbn [all_chars] in Hu. apply andb_true_iff in Hu.
    destruct Hu as [Hc _]. apply negb_true_iff, orb_false_iff in Hc.
    destruct Hc as [_ Hc]. cbn [startsWith]. rewrite Hc. reflexivity. }
  rewrite Hinf, (span_no_digit u Hu).
  destruct u as [|c r]; [reflexivity|].
  cbn [all_chars] in Hu. apply andb_true_iff in Hu. destruct Hu as [_ Hr].
  pose proof (span_no_digit r Hr) as Hs.
  destruct c as [[] [] [] [] [] [] [] []]; try reflexivity.
  rewrite Hs. reflexivity.
Qed.

(** X19.  A stake given as text never places a bet of [NaN] or of 0:
    when [parseFloat] of the text without currency signs and commas is
    [NaN] or 0 the stake is 100, and otherwise it is the number read.
    A text without a decimal digit and without a capital I is never
    read, so its stake is 100.  A stake written ["£N"] is read as [N],
    and ["£0"] as 100. *)
Theorem simulation_text_stake :
  forall (b : Simulation.bet) (s : string),
    Simulation.stake b = Simulation.StakeText s ->
    let read := parseFloat_string (Simulation.remove_currency s) in
    (Simulation.stake_of b <> NaN /\ Simulation.stake_of b <> of_Z 0)
    /\ Simulation.stake_of b
       = (if isNaN read || strict_eq read (of_Z 0) then of_Z 100 else read)
    /\ (all_chars (fun c => negb (is_digit c || Ascii.eqb c "I")) s = true ->
        Simulation.stake_of b = of_Z 100)
    /\ (forall n : N,
          s = "£" ++ string_of_N n ->
          Simulation.stake_of b
          = of_Z (if (Z.of_N n =? 0)%Z then 100 else Z.of_N n)).
Proof.
  intros b s Hs read. subst read. unfold Simulation.stake_of. rewrite Hs.
  split; [|split; [|split]].
  - unfold or_default.
    destruct (parseFloat_string (Simulation.remove_currency s)) as [a| | |];
      try (split; discriminate).
    destruct (Qc_eqb a 0) eqn:Ha; [split; discriminate|].
    split; [discriminate|].
    intro H. unfold of_Z in H. injection H as H.
    change (qc 0 1) with 0%Qc in H.
    apply Qc_eqb_true_iff in H. congruence.
  - unfold or_default.
    destruct (parseFloat_string (Simulation.remove_currency s)) as [a| | |];
      reflexivity.
  - intro Hnd.
    rewrite (parseFloat_string_no_digit _
               (all_chars_remove_currency _ _ Hnd)).
    reflexivity.
  - intros n ->.
    change (Simulation.remove_currency ("£" ++ string_of_N n))
      with (Simulation.remove_currency (string_of_N n)).
    rewrite (remove_currency_digits _ (string_of_N_digits n)).
    rewrite parseFloat_string_of_N, or_default_of_Z.
    destruct (Z.of_N n =? 0)%Z; reflexivity.
Qed.

Lemma simulation_text_stake_witness :
  Simulation.stake
    (Simulation.mkBet "b1" None None None None (of_Z 0) None
       (Simulation.StakeText "ten, £") Undefined (of_Z 2))
  = Simulation.StakeText "ten, £"
  /\ Simulation.stake_of
       (Simulation.mkBet "b1" None None None None (of_Z 0) None
          (Simulation.StakeText "ten, £") Undefined (of_Z 2))
     = of_Z 100.
Proof.
  split; [reflexivity|].
  exact (proj1 (proj2 (proj2 (simulation_text_stake
           (Simulation.mkBet "b1" None None None None (of_Z 0) None
              (Simulation.StakeText "ten, £") Undefined (of_Z 2))
           "ten, £" eq_refl))) eq_refl).
Defined.

Lemma winning_label_at_least_quarter y c :
  outcome_label y = label c -> winning c -> ge y n0_25 = true.
Proof.
  unfold outcome_label. intros Hl Hw.
  destruct (ge y n0_5) eqn:Hge.
  - destruct y as [a| | |]; try reflexivity; try discriminate Hge.
    unfold n0_5, n0_25 in *. cbn [ge] in *.
    unfold Qc_leb in *. apply Qle_bool_iff. apply Qle_bool_iff in Hge.
    revert Hge. qc_unfold. intro Hge.
    apply Qle_trans with (1 # 2); [q_arith | exact Hge].
  - destruct (strict_eq y n0_25) eqn:Heq.
    + destruct y as [a| | |]; try discriminate Heq.
      unfold n0_25 in *. cbn [strict_eq ge] in *.
      apply Qc_eqb_true_iff in Heq. subst a.
      unfold Qc_leb. apply Qle_bool_iff. apply Qle_refl.
    + exfalso.
      destruct (strict_eq y n0); [destruct Hw as [-> | ->]; discriminate Hl|].
      destruct (strict_eq y (neg n0_25));
        destruct Hw as [-> | ->]; discriminate Hl.
Qed.

Lemma round2_at_least_quarter (u : Qc) :
  ge (round2 (Fin u)) n0_25 = true -> (0 < this u)%Q.
Proof.
  unfold round2, n100, n0_25. cbn [mul Math_round]. unfold of_Z.
  cbn [div]. change (Qc_eqb (qc 100 1) 0) with false. cbv iota.
  cbn [ge]. unfold Qc_leb. intro H. apply Qle_bool_iff in H.
  revert H. qc_unfold.
  change (Qred (100 # 1)) with (100 # 1).
  change (Qred (/ (100 # 1))) with (1 # 100).
  set (z := Qfloor (this u * (100 # 1) + (1 # 2))).
  intro H.
  assert (Hz : (25 <= z)%Z).
  { revert H. unfold Qle, Qmult. cbn [Qnum Qden]. lia. }
  pose proof (Qfloor_le (this u * (100 # 1) + (1 # 2))) as Hf.
  fold z in Hf.
  assert (Hz' : (25 # 1 <= inject_Z z)%Q).
  { unfold Qle, inject_Z. cbn [Qnum Qden]. lia. }
  pose proof (Qle_trans _ _ _ Hz' Hf) as Hle.
  destruct u as [[p q] Hc]. cbn [this] in *.
  revert Hle. unfold Qle, Qlt, Qplus, Qmult. cbn [Qnum Qden]. nia.
Qed.

Lemma over_under_margins line t :
  exists x,
    sub (of_Z t) line = x /\ sub line (of_Z t) = neg x.
Proof.
  exists (sub (of_Z t) line). split; [reflexivity|].
  destruct line as [q| | |]; try reflexivity.
  unfold sub, of_Z. cbn [neg add]. f_equal. ring.
Qed.

(** ** One more property of the structured path *)

(** X20.  Over and Under on the same line and score never both come out
    on the winning side: whatever the line, a quarter line or not, and
    whatever the bet-time scores, at most one of the two results is a
    Win or a Half Win. *)
Theorem over_under_never_both_win :
  forall (line : number) (bt bt' : option string) (home away : N)
         (c c' : OutcomeClass),
    has_outcome
      (calculateEnhancedPredictedResult
         "Over" line bt (score_string home away)) c ->
    has_outcome
      (calculateEnhancedPredictedResult
         "Under" line bt' (score_string home away)) c' ->
    ~ (winning c /\ winning c').
Proof.
  intros line bt bt' home away c c'.
  rewrite !totals_result by auto.
  unfold margin. eval_selection. rewrite add_of_Z.
  set (t := (Z.of_N home + Z.of_N away)%Z).
  intros [d Hc] [d' Hc'] [Hw Hw'].
  destruct (outcome_label_class (round2 (sub (of_Z t) line))) as [k Hk].
  destruct (outcome_label_class (round2 (sub line (of_Z t)))) as [k' Hk'].
  assert (k = c).
  { rewrite Hk in Hc. eapply (proj1 (has_outcome_label _ _ _)).
    exists d. exact Hc. }
  assert (k' = c').
  { rewrite Hk' in Hc'. eapply (proj1 (has_outcome_label _ _ _)).
    exists d'. exact Hc'. }
  subst k k'.
  pose proof (winning_label_at_least_quarter _ _ Hk Hw) as Hq.
  pose proof (winning_label_at_least_quarter _ _ Hk' Hw') as Hq'.
  destruct (over_under_margins line t) as (x & Hx & Hx').
  rewrite Hx in Hq. rewrite Hx' in Hq'.
  destruct x as [u| | |]; try discriminate Hq; try discriminate Hq'.
  cbn [neg] in Hq'.
  apply round2_at_least_quarter in Hq, Hq'.
  revert Hq Hq'. unfold Qcopp. cbn [this Q2Qc]. rewrite Qred_correct.
  destruct u as [[p q] Hcan]. cbn [this].
  unfold Qlt, Qopp. cbn [Qnum Qden]. lia.
Qed.

Lemma over_under_never_both_win_witness :
  has_outcome
    (calculateEnhancedPredictedResult
       "Over" (Fin (qc 27 10)) None (score_string 2 1)) Loss
  /\ has_outcome
       (calculateEnhancedPredictedResult
          "Under" (Fin (qc 27 10)) None (score_string 2 1)) Loss
  /\ ~ (winning Loss /\ winning Loss).
Proof.
  assert (Ho : has_outcome
    (calculateEnhancedPredictedResult
       "Over" (Fin (qc 27 10)) None (score_string 2 1)) Loss)
    by (exists "Over (2.7) (3 goals)"; vm_compute; reflexivity).
  assert (Hu : has_outcome
    (calculateEnhancedPredictedResult
       "Under" (Fin (qc 27 10)) None (score_string 2 1)) Loss)
    by (exists "Under (2.7) (3 goals)"; vm_compute; reflexivity).
  split; [exact Ho|]. split; [exact Hu|].
  exact (over_under_never_both_win
           (Fin (qc 27 10)) None None 2 1 Loss Loss Ho Hu).
Defined.
